(** * Event Logger: the browser beacon (app.js) and the Apps Script ingest
    endpoint (dopost.js), embedded as state-passing functions.

    Conventions of the embedding.
    - A JavaScript string is the [string] of its UTF-8 bytes.  Every needle the
      programs search for ('/exec', 'https://', 'google.com') is ASCII, so
      prefix, suffix and substring tests agree with the UTF-16 ones.
    - A JavaScript Number is carried by the text [Number::toString] gives it;
      that text determines the Number up to the sign of zero, and it is all
      the two programs ever observe of a Number (truthiness, string
      conversion, JSON serialization).
    - A [throw] is the [Throw] completion; [try]/[catch] is a match on it.
    - Time, randomness, the network and the faults of the spreadsheet service
      are inputs of the functions that consult them. *)

From Stdlib Require Import ZArith Ascii String List Lia Bool.
From stdpp Require Import gmap strings list fin_maps.

#[local] Set Warnings "-register-all".
Local Open Scope string_scope.
Local Open Scope Z_scope.

(** ** Platform: the ECMAScript operations the two programs call *)
Module JS.

(** Language values, as far as JSON reaches, plus [undefined]. An object is
    the list of its own properties in own-property-key order. *)
Inductive jsval : Type :=
| JUndefined
| JNull
| JBool (b : bool)
| JNum (repr : string)
| JStr (s : string)
| JArr (elems : list jsval)
| JObj (props : list (string * jsval)).

Record Error : Type := mkError { name : string; message : string }.

Inductive completion (A : Type) : Type :=
| Normal (a : A)
| Throw (e : Error).
Arguments Normal {A} a.
Arguments Throw {A} e.

Definition bind {A B} (c : completion A) (k : A -> completion B) : completion B :=
  match c with
  | Normal a => k a
  | Throw e => Throw e
  end.

Definition TypeError (msg : string) : Error := mkError "TypeError" msg.
Definition RangeError (msg : string) : Error := mkError "RangeError" msg.
Definition SyntaxError (msg : string) : Error := mkError "SyntaxError" msg.
Definition PlainError (msg : string) : Error := mkError "Error" msg.
(** What an Apps Script service throws. *)
Definition ServiceException (msg : string) : Error := mkError "Exception" msg.

(** *** Objects as ordered property lists *)

Fixpoint obj_lookup (k : string) (ps : list (string * jsval)) : option jsval :=
  match ps with
  | [] => None
  | (k', v) :: rest => if String.eqb k k' then Some v else obj_lookup k rest
  end.

Definition is_digit (c : ascii) : bool :=
  (48 <=? nat_of_ascii c)%nat && (nat_of_ascii c <=? 57)%nat.

Definition digit_val (c : ascii) : Z := Z.of_nat (nat_of_ascii c) - 48.

Fixpoint dec_value (s : string) (acc : Z) : Z :=
  match s with
  | EmptyString => acc
  | String c rest => dec_value rest (acc * 10 + digit_val c)
  end.

Fixpoint all_digits (s : string) : bool :=
  match s with
  | EmptyString => true
  | String c rest => is_digit c && all_digits rest
  end.

(** An array index is a canonical numeric string below 2^32 - 1; such keys
    come first, in ascending order, among an object's own keys. *)
Definition array_index (k : string) : option Z :=
  match k with
  | EmptyString => None
  | String c rest =>
      if all_digits k
         && (negb (Ascii.eqb c "0") || String.eqb rest "")
         && (Z.of_nat (String.length k) <=? 10)
         && (dec_value k 0 <? 4294967295)
      then Some (dec_value k 0) else None
  end.

(** Where a property that is not there yet goes. *)
Fixpoint obj_add (k : string) (v : jsval) (ps : list (string * jsval))
  : list (string * jsval) :=
  match ps with
  | [] => [(k, v)]
  | (k', v') :: rest =>
      match array_index k, array_index k' with
      | Some i, Some i' =>
          if i <? i' then (k, v) :: ps else (k', v') :: obj_add k v rest
      | Some _, None => (k, v) :: ps
      | None, _ => (k', v') :: obj_add k v rest
      end
  end.

Fixpoint obj_replace (k : string) (v : jsval) (ps : list (string * jsval))
  : list (string * jsval) :=
  match ps with
  | [] => []
  | (k', v') :: rest =>
      if String.eqb k k' then (k', v) :: rest else (k', v') :: obj_replace k v rest
  end.

(** [o[k] = v] on an ordinary object: an existing key keeps its place. *)
Definition obj_set (k : string) (v : jsval) (ps : list (string * jsval))
  : list (string * jsval) :=
  match obj_lookup k ps with
  | Some _ => obj_replace k v ps
  | None => obj_add k v ps
  end.

(** [{...target, ...source}]: the source's own properties are set one by
    one, in the source's order. *)
Definition spread (target source : list (string * jsval)) : list (string * jsval) :=
  fold_left (fun o kv => obj_set (fst kv) (snd kv) o) source target.

(** *** Conversions *)

Definition ToBoolean (v : jsval) : bool :=
  match v with
  | JUndefined | JNull => false
  | JBool b => b
  | JNum r => negb (String.eqb r "0" || String.eqb r "NaN")
  | JStr s => negb (String.eqb s "")
  | JArr _ | JObj _ => true
  end.

(** [ToString]. An array joins its elements with commas ([undefined] and
    [null] elements count as empty); a plain object gives
    "[object Object]" through Object.prototype.toString, unless an own
    property named toString shadows that method with something that
    cannot be called, in which case no primitive value can be had. *)
Fixpoint ToString (v : jsval) : completion string :=
  match v with
  | JUndefined => Normal "undefined"
  | JNull => Normal "null"
  | JBool true => Normal "true"
  | JBool false => Normal "false"
  | JNum r => Normal r
  | JStr s => Normal s
  | JArr elems =>
      (fix join (l : list jsval) : completion string :=
         match l with
         | [] => Normal ""
         | x :: rest =>
             bind (match x with
                   | JUndefined | JNull => Normal ""
                   | _ => ToString x
                   end)
               (fun sx =>
                  match rest with
                  | [] => Normal sx
                  | _ => bind (join rest) (fun sr => Normal (sx +:+ "," +:+ sr))
                  end)
         end) elems
  | JObj ps =>
      match obj_lookup "toString" ps with
      | Some _ => Throw (TypeError "Cannot convert object to primitive value")
      | None => Normal "[object Object]"
      end
  end.

(** The text of the elements of an array, joined with commas: the loop
    inside [ToString], by itself. *)
Definition join_elems : list jsval -> completion string :=
  fix join (l : list jsval) : completion string :=
    match l with
    | [] => Normal ""
    | x :: rest =>
        bind (match x with
              | JUndefined | JNull => Normal ""
              | _ => ToString x
              end)
          (fun sx =>
             match rest with
             | [] => Normal sx
             | _ => bind (join rest) (fun sr => Normal (sx +:+ "," +:+ sr))
             end)
    end.

(** [v.k] for a name [k] that is neither an array index nor "length" (the
    programs read event, variant, userId, ts, meta and ok only): reading a
    property of [undefined] or [null] throws, an object answers from its
    own properties, anything else has no such property. *)
Definition Get (v : jsval) (k : string) : completion jsval :=
  match v with
  | JUndefined =>
      Throw (TypeError ("Cannot read properties of undefined (reading '" +:+ k +:+ "')"))
  | JNull =>
      Throw (TypeError ("Cannot read properties of null (reading '" +:+ k +:+ "')"))
  | JObj ps => Normal (default JUndefined (obj_lookup k ps))
  | _ => Normal JUndefined
  end.

(** [a || b] *)
Definition or_else (a b : jsval) : jsval := if ToBoolean a then a else b.

(** *** Strings *)

Definition bytes (l : list nat) : string :=
  fold_right (fun n s => String (ascii_of_nat n) s) EmptyString l.

(** The code points that [trim] and [parseInt] skip (WhiteSpace and
    LineTerminator), each as its UTF-8 encoding: TAB, LF, VT, FF, CR, SP,
    U+00A0, U+1680, U+2000 to U+200A, U+2028, U+2029, U+202F, U+205F,
    U+3000, U+FEFF. *)
Definition white_space : list string :=
  map bytes
    [ [9]; [10]; [11]; [12]; [13]; [32]; [194; 160]; [225; 154; 128];
      [226; 128; 128]; [226; 128; 129]; [226; 128; 130]; [226; 128; 131];
      [226; 128; 132]; [226; 128; 133]; [226; 128; 134]; [226; 128; 135];
      [226; 128; 136]; [226; 128; 137]; [226; 128; 138];
      [226; 128; 168]; [226; 128; 169]; [226; 128; 175];
      [226; 129; 159]; [227; 128; 128]; [239; 187; 191] ]%nat.

Fixpoint drop_bytes (n : nat) (s : string) : string :=
  match n, s with
  | S n', String _ rest => drop_bytes n' rest
  | _, _ => s
  end.

(** The white space code point [s] starts with, if any. *)
Definition leading_space (s : string) : option string :=
  List.find (fun w => String.prefix w s) white_space.

Fixpoint trimStart_upto (fuel : nat) (s : string) : string :=
  match fuel with
  | O => s
  | S fuel' =>
      match leading_space s with
      | Some w => trimStart_upto fuel' (drop_bytes (String.length w) s)
      | None => s
      end
  end.

Definition trimStart (s : string) : string := trimStart_upto (String.length s) s.

Fixpoint trimEnd (s : string) : string :=
  match s with
  | EmptyString => EmptyString
  | String c rest =>
      if String.eqb (trimStart s) "" then EmptyString else String c (trimEnd rest)
  end.

Definition trim (s : string) : string := trimEnd (trimStart s).

Definition startsWith (s p : string) : bool := String.prefix p s.

Fixpoint includes (s p : string) : bool :=
  String.prefix p s ||
  match s with
  | EmptyString => false
  | String _ rest => includes rest p
  end.

Definition endsWith (s p : string) : bool :=
  (String.length p <=? String.length s)%nat
  && String.eqb (drop_bytes (String.length s - String.length p) s) p.

(** [s.substr(start, len)] for a start inside the string. *)
Definition substr (s : string) (start len : nat) : string :=
  String.substring start len s.

(** *** Integers to text and back *)

Definition digit_char (d : Z) : ascii :=
  match String.get (Z.to_nat d) "0123456789abcdefghijklmnopqrstuvwxyz" with
  | Some c => c
  | None => "0"%char
  end.

Fixpoint to_digits (fuel : nat) (radix n : Z) (acc : string) : string :=
  match fuel with
  | O => acc
  | S fuel' =>
      let acc' := String (digit_char (n mod radix)) acc in
      if n <? radix then acc' else to_digits fuel' radix (n / radix) acc'
  end.

(** [n.toString(radix)] for an integer-valued Number [n] (in radix 10,
    one below 1e21 in magnitude, where the text is still plain digits). *)
Definition Z_toString (radix n : Z) : string :=
  let digits m := to_digits (S (Z.to_nat (Z.log2 m))) radix m "" in
  if n <? 0 then "-" +:+ digits (- n) else digits n.

(** The value of a digit in radix 10 or 16. *)
Definition radix_digit (radix : Z) (c : ascii) : option Z :=
  let n := Z.of_nat (nat_of_ascii c) in
  if (48 <=? n) && (n <=? 57) then Some (n - 48)
  else if (radix =? 16) && (97 <=? n) && (n <=? 102) then Some (n - 87)
  else if (radix =? 16) && (65 <=? n) && (n <=? 70) then Some (n - 55)
  else None.

(** Reads the longest run of digits at the front of [s]: the value read so
    far, and whether any digit was read. *)
Fixpoint read_digits (radix : Z) (s : string) (acc : Z) (seen : bool) : Z * bool :=
  match s with
  | EmptyString => (acc, seen)
  | String c rest =>
      match radix_digit radix c with
      | Some d => read_digits radix rest (acc * radix + d) true
      | None => (acc, seen)
      end
  end.

(** [parseInt(s)] with no radix given: [None] is NaN, [Some n] the integer
    read. The Number returned is [n] itself up to 2^53 in magnitude and the
    nearest (or an approximated) double beyond. Leading white space is
    skipped, then a sign, then 0x or 0X selects radix 16, then the longest
    run of digits is read; no digit at all gives NaN. *)
Definition parse_magnitude (s : string) : option Z :=
  let '(radix, digits) :=
    match s with
    | String "0" (String "x" rest) => (16, rest)
    | String "0" (String "X" rest) => (16, rest)
    | _ => (10, s)
    end in
  let '(n, seen) := read_digits radix digits 0 false in
  if seen then Some n else None.

Definition parseInt_string (s : string) : option Z :=
  let s1 := trimStart s in
  match s1 with
  | String "-" rest => option_map Z.opp (parse_magnitude rest)
  | String "+" rest => parse_magnitude rest
  | _ => parse_magnitude s1
  end.

Definition parseInt (v : jsval) : completion (option Z) :=
  bind (ToString v) (fun s => Normal (parseInt_string s)).

(** *** Dates *)

(** A Date object: its time value in milliseconds since the epoch, or
    [None] for an invalid date. *)
Definition Date : Type := option Z.

(** [new Date(value)] on the Number [parseInt] returned: TimeClip keeps a
    finite time value of magnitude at most 8.64e15 and makes anything else
    an invalid date. Every integer up to that bound is a double, and a
    larger one rounds to a larger double, so the test on the exact integer
    is the test on the Number. *)
Definition Date_new (value : option Z) : Date :=
  match value with
  | Some t => if Z.abs t <=? 8640000000000000 then Some t else None
  | None => None
  end.

Definition msPerDay : Z := 86400000.

(** Year, month (1 to 12) and day of the month of a day number counted
    from 1970-01-01, in the proleptic Gregorian calendar. *)
Definition civil_from_days (days : Z) : Z * Z * Z :=
  let z := days + 719468 in
  let era := z / 146097 in
  let doe := z - era * 146097 in
  let yoe := (doe - doe / 1460 + doe / 36524 - doe / 146096) / 365 in
  let doy := doe - (365 * yoe + yoe / 4 - yoe / 100) in
  let mp := (5 * doy + 2) / 153 in
  let d := doy - (153 * mp + 2) / 5 + 1 in
  let m := if mp <? 10 then mp + 3 else mp - 9 in
  let y := yoe + era * 400 + (if m <=? 2 then 1 else 0) in
  (y, m, d).

Fixpoint zeros (n : nat) : string :=
  match n with
  | O => EmptyString
  | S n' => String "0" (zeros n')
  end.

(** A non-negative integer in decimal, padded with zeros to [width]. *)
Definition pad (width : nat) (n : Z) : string :=
  let s := Z_toString 10 n in
  zeros (width - String.length s) +:+ s.

Definition iso_year (y : Z) : string :=
  if (0 <=? y) && (y <=? 9999) then pad 4 y
  else (if y <? 0 then "-" else "+") +:+ pad 6 (Z.abs y).

(** [Date.prototype.toISOString]: YYYY-MM-DDTHH:mm:ss.sssZ in UTC, with a
    signed six-digit year outside 0..9999; an invalid date throws. *)
Definition iso_text (t : Z) : string :=
  let '(y, m, dd) := civil_from_days (t / msPerDay) in
  let r := t mod msPerDay in
  iso_year y +:+ "-" +:+ pad 2 m +:+ "-" +:+ pad 2 dd +:+ "T"
  +:+ pad 2 (r / 3600000) +:+ ":" +:+ pad 2 (r / 60000 mod 60) +:+ ":"
  +:+ pad 2 (r / 1000 mod 60) +:+ "." +:+ pad 3 (r mod 1000) +:+ "Z".

Definition toISOString (d : Date) : completion string :=
  match d with
  | None => Throw (RangeError "Invalid time value")
  | Some t => Normal (iso_text t)
  end.

(** *** JSON.stringify *)

Definition hex4 (n : Z) : string :=
  let s := Z_toString 16 n in
  zeros (4 - String.length s) +:+ s.

Definition dquote : string := String (ascii_of_nat 34) EmptyString.

Definition quote_char (c : ascii) : string :=
  let n := Z.of_nat (nat_of_ascii c) in
  if n =? 8 then "\b"
  else if n =? 9 then "\t"
  else if n =? 10 then "\n"
  else if n =? 12 then "\f"
  else if n =? 13 then "\r"
  else if n =? 34 then "\" +:+ dquote
  else if n =? 92 then "\\"
  else if n <? 32 then "\u" +:+ hex4 n
  else String c EmptyString.

Fixpoint quote_chars (s : string) : string :=
  match s with
  | EmptyString => EmptyString
  | String c rest => quote_char c +:+ quote_chars rest
  end.

(** QuoteJSONString *)
Definition QuoteJSONString (s : string) : string := dquote +:+ quote_chars s +:+ dquote.

Definition join_with (sep : string) (parts : list string) : string :=
  match parts with
  | [] => EmptyString
  | p :: rest => fold_left (fun acc q => acc +:+ sep +:+ q) rest p
  end.

(** SerializeJSONProperty with no replacer and no indentation: [None] is
    the [undefined] that JSON.stringify gives for [undefined]. A property
    whose value is [undefined] is left out of an object and written null
    in an array; a Number that is not finite is written null. *)
Fixpoint SerializeJSONProperty (v : jsval) : option string :=
  match v with
  | JUndefined => None
  | JNull => Some "null"
  | JBool true => Some "true"
  | JBool false => Some "false"
  | JNum r =>
      if String.eqb r "NaN" || String.eqb r "Infinity" || String.eqb r "-Infinity"
      then Some "null" else Some r
  | JStr s => Some (QuoteJSONString s)
  | JArr elems =>
      Some ("[" +:+ join_with ","
              (map (fun x => default "null" (SerializeJSONProperty x)) elems) +:+ "]")
  | JObj ps =>
      Some ("{" +:+ join_with ","
              ((fix members (l : list (string * jsval)) : list string :=
                  match l with
                  | [] => []
                  | (k, x) :: rest =>
                      match SerializeJSONProperty x with
                      | Some sx => (QuoteJSONString k +:+ ":" +:+ sx) :: members rest
                      | None => members rest
                      end
                  end) ps) +:+ "}")
  end.

Definition JSON_stringify (v : jsval) : option string := SerializeJSONProperty v.

End JS.

(** ** dopost.js: the ingest endpoint *)
Module Ingest.
Import JS.

(** *** The request and the response *)

(** [e.postData]: the declared MIME type and the raw body. *)
Record PostData : Type := mkPostData { type : string; contents : string }.

(** The event object Apps Script hands to [doPost]. [parameter] holds the
    decoded form fields (a field sent twice keeps its first value, so a
    name occurs once); [postData] is missing when no body came. *)
Record Event : Type := mkEvent {
  postData : option PostData;
  parameter : list (string * string)
}.

Inductive MimeType : Type := MimeJSON | MimeTEXT.

(** A ContentService text output. *)
Record TextOutput : Type := mkTextOutput { content : string; mimeType : MimeType }.

Definition createTextOutput (text : string) : TextOutput := mkTextOutput text MimeTEXT.
Definition setMimeType (m : MimeType) (o : TextOutput) : TextOutput :=
  mkTextOutput (content o) m.

(** *** The spreadsheet service *)

(** A row is the list of cell values handed to the service; a sheet is the
    list of its rows; a spreadsheet maps sheet names to sheets. *)
Definition Row : Type := list jsval.

Record World : Type := mkWorld {
  script_properties : gmap string string;
  active : option string;
  documents : gmap string (gmap string (list Row))
}.

(** The service calls of the script. Each may fail for reasons outside the
    script (quota, permissions, an outage): the oracle [svc] says, per
    call, whether it throws and with which message. *)
Inductive service_call : Type :=
| GetProperty | OpenById | GetActiveSpreadsheet | GetSheetByName
| InsertSheet | SetValues | FormatHeader | AppendRow.

Definition M (A : Type) : Type := World -> completion A * World.

Definition ret {A} (a : A) : M A := fun w => (Normal a, w).
Definition throw {A} (e : Error) : M A := fun w => (Throw e, w).
Definition lift {A} (c : completion A) : M A := fun w => (c, w).
Definition bindM {A B} (m : M A) (k : A -> M B) : M B :=
  fun w =>
    match m w with
    | (Normal a, w') => k a w'
    | (Throw e, w') => (Throw e, w')
    end.

Notation "'do' x <- m ; k" := (bindM m (fun x => k))
  (at level 10, x name, m at level 100, k at level 200, only parsing).
Notation "'run' m ; k" := (bindM m (fun _ => k))
  (at level 10, m at level 100, k at level 200, only parsing).

Definition modify (f : World -> World) : M unit := fun w => (Normal tt, f w).

Definition with_sheet (id name : string) (rows : list Row) (w : World) : World :=
  mkWorld (script_properties w) (active w)
    (<[id := <[name := rows]> (default ∅ (documents w !! id))]> (documents w)).

Definition sheet_rows (id name : string) (w : World) : option (list Row) :=
  documents w !! id ≫= fun ss => ss !! name.

(** The document a request lands in: the one named by the script property
    SPREADSHEET_ID when that is set, the bound one otherwise; [None] when
    there is no such document. *)
Definition target_spreadsheet (w : World) : option string :=
  let configured := script_properties w !! "SPREADSHEET_ID" in
  let id := if ToBoolean (match configured with Some s => JStr s | None => JNull end)
            then configured else active w in
  id ≫= fun i => match documents w !! i with Some _ => Some i | None => None end.

(** The field [k] of a decoded form. *)
Fixpoint assoc (k : string) (fields : list (string * string)) : option string :=
  match fields with
  | [] => None
  | (k', v) :: rest => if String.eqb k k' then Some v else assoc k rest
  end.

Section Service.
Variable svc : service_call -> option string.

(** A call that reaches the service: it throws when the oracle says so. *)
Definition reach (c : service_call) : M unit :=
  match svc c with
  | Some msg => throw (ServiceException msg)
  | None => ret tt
  end.

(** [PropertiesService.getScriptProperties().getProperty(k)] *)
Definition getProperty (k : string) : M (option string) :=
  run reach GetProperty;
  fun w => (Normal (script_properties w !! k), w).

(** [SpreadsheetApp.openById(id)]: a handle on the document, or a throw
    when there is no such document. *)
Definition openById (id : string) : M string :=
  run reach OpenById;
  fun w =>
    match documents w !! id with
    | Some _ => (Normal id, w)
    | None =>
        (Throw (ServiceException
                  "Unexpected error while getting the method or property openById on object SpreadsheetApp."),
         w)
    end.

(** [SpreadsheetApp.getActiveSpreadsheet()]: [None] is the null a script
    bound to no document gets. *)
Definition getActiveSpreadsheet : M (option string) :=
  run reach GetActiveSpreadsheet;
  fun w =>
    match active w with
    | Some id => (Normal (match documents w !! id with Some _ => Some id | None => None end), w)
    | None => (Normal None, w)
    end.

(** [spreadsheet.getSheetByName(name)]: the sheet's handle or null;
    calling it on a null spreadsheet is a TypeError. *)
Definition getSheetByName (spreadsheet : option string) (name : string)
  : M (option (string * string)) :=
  match spreadsheet with
  | None => throw (TypeError "Cannot read properties of null (reading 'getSheetByName')")
  | Some id =>
      run reach GetSheetByName;
      fun w =>
        (Normal (match sheet_rows id name w with
                 | Some _ => Some (id, name)
                 | None => None
                 end), w)
  end.

(** [spreadsheet.insertSheet(name)] *)
Definition insertSheet (spreadsheet : option string) (name : string)
  : M (string * string) :=
  match spreadsheet with
  | None => throw (TypeError "Cannot read properties of null (reading 'insertSheet')")
  | Some id =>
      run reach InsertSheet;
      run modify (with_sheet id name []);
      ret (id, name)
  end.

(** [sheet.getRange(1, 1, 1, n).setValues([values])]: the first [n]
    cells of row 1 are overwritten. *)
Definition setValues_row1 (sheet : string * string) (values : Row) : M unit :=
  run reach SetValues;
  modify (fun w =>
            match sheet_rows (fst sheet) (snd sheet) w with
            | Some [] => with_sheet (fst sheet) (snd sheet) [values] w
            | Some (r :: rest) =>
                with_sheet (fst sheet) (snd sheet)
                  ((values ++ drop (length values) r)%list :: rest) w
            | None => w
            end).

(** [sheet.appendRow(rowData)] *)
Definition appendRow (sheet : string * string) (rowData : Row) : M unit :=
  run reach AppendRow;
  modify (fun w =>
            match sheet_rows (fst sheet) (snd sheet) w with
            | Some rows => with_sheet (fst sheet) (snd sheet) (rows ++ [rowData])%list w
            | None => w
            end).

(** *** The script *)

Definition headers : Row :=
  [JStr "ts_iso"; JStr "event"; JStr "variant"; JStr "userId"; JStr "meta"].

(** [initSheetHeaders]: the header row, then the freeze, the background
    and weight, and the column widths, which change no cell. *)
Definition initSheetHeaders (sheet : string * string) : M unit :=
  run setValues_row1 sheet headers;
  reach FormatHeader.

Definition getOrCreateLogSheet : M (string * string) :=
  do spreadsheetId <- getProperty "SPREADSHEET_ID";
  if ToBoolean (match spreadsheetId with Some s => JStr s | None => JNull end) then
    do spreadsheet <- openById (default "" spreadsheetId);
    do sheet <- getSheetByName (Some spreadsheet) "logs";
    match sheet with
    | Some sh => ret sh
    | None =>
        do sh <- insertSheet (Some spreadsheet) "logs";
        run initSheetHeaders sh;
        ret sh
    end
  else
    do spreadsheet <- getActiveSpreadsheet;
    do sheet <- getSheetByName spreadsheet "logs";
    match sheet with
    | Some sh => ret sh
    | None =>
        do sh <- insertSheet spreadsheet "logs";
        run initSheetHeaders sh;
        ret sh
    end.

(** [JSON.parse], the platform's parser: the value read, or the message
    of the SyntaxError it throws. *)
Variable JSON_parse : string -> jsval + string.

Definition form_type : string := "application/x-www-form-urlencoded".
Definition json_type : string := "application/json".

(** [e.parameter] as the object the script reads. *)
Definition parameter_object (e : Event) : jsval :=
  JObj (map (fun kv => (fst kv, JStr (snd kv))) (parameter e)).

(** Lines 13-24: the parameters, by declared content type. *)
Definition parse_params (e : Event) : completion jsval :=
  match postData e with
  | None => Throw (TypeError "Cannot read properties of undefined (reading 'type')")
  | Some pd =>
      if String.eqb (type pd) form_type then Normal (parameter_object e)
      else if String.eqb (type pd) json_type then
        match JSON_parse (contents pd) with
        | inl v => Normal v
        | inr msg => Throw (SyntaxError msg)
        end
      else Throw (PlainError ("Unsupported content type: " +:+ type pd))
  end.

(** [!params.k] *)
Definition absent (params : jsval) (k : string) : completion bool :=
  bind (Get params k) (fun v => Normal (negb (ToBoolean v))).

(** Lines 27-29, with the short circuit of [||]. *)
Definition validate (params : jsval) : completion unit :=
  bind (absent params "event") (fun no_event =>
  bind (if no_event then Normal true else absent params "userId") (fun no_user =>
  bind (if no_user then Normal true else absent params "ts") (fun no_ts =>
  if no_ts then Throw (PlainError "Missing required parameters") else Normal tt))).

(** The rows of the log once [rowData] is appended: after the rows that
    were there, or after the header row of a sheet made for it. *)
Definition appended (doc : string) (rowData : Row) (w : World) : World :=
  with_sheet doc "logs"
    (default [headers] (sheet_rows doc "logs" w) ++ [rowData])%list w.

(** [w'] is [w], or [w] with a new "logs" sheet that is empty or holds
    the header row only. *)
Definition at_most_fresh_sheet (w w' : World) : Prop :=
  w' = w
  \/ exists doc, sheet_rows doc "logs" w = None
                 /\ (w' = with_sheet doc "logs" [] w
                     \/ w' = with_sheet doc "logs" [headers] w).

(** Lines 32-39. *)
Definition rowData_of (params : jsval) : completion Row :=
  bind (Get params "ts") (fun ts =>
  bind (parseInt ts) (fun n =>
  let timestamp := Date_new n in
  bind (toISOString timestamp) (fun ts_iso =>
  bind (Get params "event") (fun event =>
  bind (Get params "variant") (fun variant =>
  bind (Get params "userId") (fun userId =>
  bind (Get params "meta") (fun meta =>
  Normal [JStr ts_iso; event; or_else variant (JStr ""); userId;
          or_else meta (JStr "")]))))))).

Definition json_text (v : jsval) : string := default "undefined" (JSON_stringify v).

Definition success_output : TextOutput :=
  setMimeType MimeJSON (createTextOutput (json_text (JObj [("ok", JBool true)]))).

Definition failure_output (error : Error) : TextOutput :=
  setMimeType MimeJSON
    (createTextOutput
       (json_text (JObj [("ok", JBool false); ("error", JStr (message error))]))).

(** The body of the [try] block. *)
Definition doPost_try (e : Event) : M TextOutput :=
  do params <- lift (parse_params e);
  run lift (validate params);
  do rowData <- lift (rowData_of params);
  do sheet <- getOrCreateLogSheet;
  run appendRow sheet rowData;
  ret success_output.

(** [doPost]: whatever the [try] block throws is turned into the failure
    output by the [catch] block. *)
Definition doPost (e : Event) (w : World) : TextOutput * World :=
  match doPost_try e w with
  | (Normal out, w') => (out, w')
  | (Throw error, w') => (failure_output error, w')
  end.

(** What the script reads for [params.k] once [params] is known to be
    neither null nor undefined. *)
Definition prop (params : jsval) (k : string) : jsval :=
  match params with
  | JObj ps => default JUndefined (obj_lookup k ps)
  | _ => JUndefined
  end.

(** All of event, userId and ts are truthy. *)
Definition required_present (params : jsval) : bool :=
  ToBoolean (prop params "event") && ToBoolean (prop params "userId")
  && ToBoolean (prop params "ts").

(** The validation error of line 28. *)
Definition missing_parameters : Error := PlainError "Missing required parameters".

(** The request is turned down with [err] before the store is reached:
    by the parsing of lines 16-24, the validation of lines 27-29, or the
    making of the row in lines 32-39. *)
Definition rejected_before_store (e : Event) (err : Error) : Prop :=
  parse_params e = Throw err
  \/ exists params,
      parse_params e = Normal params
      /\ (validate params = Throw err
          \/ (validate params = Normal tt /\ rowData_of params = Throw err)).

(** [doGet] *)
Definition doGet : TextOutput :=
  setMimeType MimeJSON
    (createTextOutput
       (json_text (JObj [("status", JStr "ready");
                         ("instructions", JStr "Send POST requests with event data")]))).

End Service.

End Ingest.

(** ** app.js: the browser beacon *)
Module Beacon.
Import JS.

(** What [fetch] is handed: the URL, the method, and the entries of the
    URLSearchParams body in the order they were appended. *)
Record Request : Type := mkRequest {
  url : string;
  method : string;
  body : list (string * string)
}.

(** The page: local storage, the URL input, the status element, the
    timers [updateStatus] has armed (each remembers its message), and two
    traces: every (text, class) the status element was given, and every
    request handed to [fetch], oldest first. *)
Record Page : Type := mkPage {
  localStorage : gmap string string;
  gasUrlInput_value : string;
  status_textContent : string;
  status_className : string;
  timers : list string;
  shown : list (string * string);
  fetched : list Request;
  pathname : string;
  userAgent : string
}.

Definition GAS_URL : string := "gas_url".
Definition USER_ID : string := "uid".

Definition getItem (k : string) (p : Page) : option string := localStorage p !! k.

Definition setItem (k v : string) (p : Page) : Page :=
  mkPage (<[k := v]> (localStorage p)) (gasUrlInput_value p) (status_textContent p)
    (status_className p) (timers p) (shown p) (fetched p) (pathname p) (userAgent p).

(** A string from storage, or the null of a missing key, as a condition. *)
Definition truthy (o : option string) : bool :=
  match o with
  | Some s => negb (String.eqb s "")
  | None => false
  end.

(** [getOrCreateUserId], given what [Date.now()] and
    [Math.random().toString(36)] return should it ask. *)
Definition getOrCreateUserId (now : Z) (random36 : string) (p : Page) : string * Page :=
  let userId := getItem USER_ID p in
  if negb (truthy userId) then
    let userId := "usr_" +:+ Z_toString 36 now +:+ "_" +:+ substr random36 2 9 in
    (userId, setItem USER_ID userId p)
  else (default "" userId, p).

(** [updateStatus(message, isError)] *)
Definition updateStatus (message : string) (isError : bool) (p : Page) : Page :=
  let className := if isError then "error" else "success" in
  mkPage (localStorage p) (gasUrlInput_value p) message className
    (if isError then timers p else (timers p ++ [message])%list)
    (shown p ++ [(message, className)])%list (fetched p) (pathname p) (userAgent p).

(** The callback armed by [updateStatus], three seconds later. *)
Definition timer_fires (message : string) (p : Page) : Page :=
  if String.eqb (status_textContent p) message then
    mkPage (localStorage p) (gasUrlInput_value p) "" "" (timers p) (shown p ++ [("", "")])%list
      (fetched p) (pathname p) (userAgent p)
  else p.

(** The argument of [sendLogSimple]. [meta], when given, is an object. *)
Record Payload : Type := mkPayload {
  event : string;
  variant : option string;
  meta : option (list (string * jsval))
}.

(** What the two [await]s of [sendLogSimple] come back with. *)
Inductive FetchOutcome : Type :=
| NetworkError (msg : string)
| Response (status : Z) (json : completion jsval).

Definition fetch (r : Request) (p : Page) : Page :=
  mkPage (localStorage p) (gasUrlInput_value p) (status_textContent p) (status_className p)
    (timers p) (shown p) (fetched p ++ [r])%list (pathname p) (userAgent p).

(** Lines 98-103: the metadata object and its serialization. *)
Definition meta_object (payload : Payload) (p : Page) : list (string * jsval) :=
  spread [("page", JStr (pathname p)); ("ua", JStr (userAgent p))]
    (default [] (meta payload)).

Definition meta_string (payload : Payload) (p : Page) : string :=
  default "undefined" (JSON_stringify (JObj (meta_object payload p))).

(** Lines 91-103: the URLSearchParams, with the page after the identifier
    was looked up. *)
Definition build_params (payload : Payload) (id_now : Z) (random36 : string) (ts_now : Z)
    (p : Page) : list (string * string) * Page :=
  let params := [("event", event payload)] in
  let params := if truthy (variant payload)
                then (params ++ [("variant", default "" (variant payload))])%list
                else params in
  let '(userId, p1) := getOrCreateUserId id_now random36 p in
  let params := (params ++ [("userId", userId)])%list in
  let params := (params ++ [("ts", Z_toString 10 ts_now)])%list in
  let params := (params ++ [("meta", meta_string payload p1)])%list in
  (params, p1).

(** Lines 112-121, after the response came. *)
Definition handle_response (outcome : FetchOutcome) : completion (string * bool) :=
  match outcome with
  | NetworkError msg => Throw (TypeError msg)
  | Response status json =>
      if negb ((200 <=? status) && (status <=? 299))
      then Throw (PlainError ("HTTP " +:+ Z_toString 10 status))
      else
        bind json (fun result =>
        bind (Get result "ok") (fun ok =>
        if ToBoolean ok then Normal ("Logged", false)
        else Normal ("Server error", true)))
  end.

(** [sendLogSimple(payload)], run to completion against the outcome of its
    one request. *)
Definition sendLogSimple (payload : Payload) (id_now : Z) (random36 : string) (ts_now : Z)
    (outcome : FetchOutcome) (p : Page) : Page :=
  let gasUrl := getItem GAS_URL p in
  if negb (truthy gasUrl) then
    updateStatus "Missing Web App URL. Please save a valid URL first." true p
  else if negb (endsWith (default "" gasUrl) "/exec") then
    updateStatus "URL must end with /exec" true p
  else
    let '(params, p1) := build_params payload id_now random36 ts_now p in
    let p2 := fetch (mkRequest (default "" gasUrl) "POST" params) p1 in
    match handle_response outcome with
    | Normal (message, isError) => updateStatus message isError p2
    | Throw error => updateStatus ("Failed: " +:+ message error) true p2
    end.

(** The click handler of the save button (lines 145-158). *)
Definition saveUrl_click (p : Page) : Page :=
  let url := trim (gasUrlInput_value p) in
  if String.eqb url "" then updateStatus "Please enter a URL" true p
  else
    let p1 := if negb (startsWith url "https://") || negb (includes url "google.com")
              then updateStatus "Warning: URL may not be valid" true p
              else p in
    let p2 := setItem GAS_URL url p1 in
    updateStatus "URL saved" false p2.

Definition ctaA_click := sendLogSimple (mkPayload "cta_click" (Some "A") None).
Definition ctaB_click := sendLogSimple (mkPayload "cta_click" (Some "B") None).
Definition heartbeat_click := sendLogSimple (mkPayload "heartbeat" None None).

(** [init], up to the registration of the listeners. *)
Definition init (now : Z) (random36 : string) (p : Page) : Page :=
  let savedUrl := getItem GAS_URL p in
  let p1 := if truthy savedUrl
            then mkPage (localStorage p) (default "" savedUrl) (status_textContent p)
                   (status_className p) (timers p) (shown p) (fetched p) (pathname p)
                   (userAgent p)
            else p in
  snd (getOrCreateUserId now random36 p1).

(** The keypress listener of the URL input (lines 181-185): Enter clicks
    the save button. *)
Definition gasUrlInput_keypress (key : string) (p : Page) : Page :=
  if String.eqb key "Enter" then saveUrl_click p else p.

End Beacon.

(** ** The wire between the two programs *)
Module Wire.
Import JS.

Definition unreserved (c : ascii) : bool :=
  let n := Z.of_nat (nat_of_ascii c) in
  ((48 <=? n) && (n <=? 57)) || ((65 <=? n) && (n <=? 90)) || ((97 <=? n) && (n <=? 122))
  || (n =? 42) || (n =? 45) || (n =? 46) || (n =? 95).

Definition upper_hex (d : Z) : ascii :=
  match String.get (Z.to_nat d) "0123456789ABCDEF" with
  | Some c => c
  | None => "0"%char
  end.

(** The application/x-www-form-urlencoded byte serializer. *)
Fixpoint percent_encode (s : string) : string :=
  match s with
  | EmptyString => EmptyString
  | String c rest =>
      let n := Z.of_nat (nat_of_ascii c) in
      (if unreserved c then String c EmptyString
       else if n =? 32 then "+"
       else String "%" (String (upper_hex (n / 16)) (String (upper_hex (n mod 16)) EmptyString)))
      +:+ percent_encode rest
  end.

Definition serialize (entries : list (string * string)) : string :=
  join_with "&" (map (fun kv => percent_encode (fst kv) +:+ "=" +:+ percent_encode (snd kv)) entries).

(** A field sent more than once keeps its first value in [e.parameter]. *)
Fixpoint first_values (entries : list (string * string)) : list (string * string) :=
  match entries with
  | [] => []
  | (k, v) :: rest =>
      (k, v) :: List.filter (fun kv => negb (String.eqb (fst kv) k)) (first_values rest)
  end.

(** How a request of the beacon reaches [doPost]: the browser serializes
    the URLSearchParams body and declares it form-urlencoded, and Apps
    Script decodes it back into [e.parameter]. *)
Definition deliver (r : Beacon.Request) : Ingest.Event :=
  Ingest.mkEvent
    (Some (Ingest.mkPostData Ingest.form_type (serialize (Beacon.body r))))
    (first_values (Beacon.body r)).

End Wire.

(** ** Sample inputs *)
Module Samples.
Import JS.

(** A service that answers every call. *)
Definition svc_up : Ingest.service_call -> option string := fun _ => None.

(** A service whose [appendRow] fails. *)
Definition svc_append_down : Ingest.service_call -> option string :=
  fun c => match c with
           | Ingest.AppendRow => Some "Service Spreadsheets failed while accessing document"
           | _ => None
           end.

(** A parser that is never given JSON it can read. *)
Definition no_json : string -> jsval + string :=
  fun _ => inr "Unexpected end of JSON input".

(** A script bound to a document that has no "logs" sheet yet. *)
Definition bound_world : Ingest.World :=
  Ingest.mkWorld ∅ (Some "bound") {[ "bound" := ∅ ]}.

Definition form_post (fields : list (string * string)) : Ingest.Event :=
  Ingest.mkEvent (Some (Ingest.mkPostData Ingest.form_type (Wire.serialize fields))) fields.

Definition heartbeat_post : Ingest.Event :=
  form_post [("event", "heartbeat"); ("userId", "u1"); ("ts", "1700000000000")].

(** The event field is there, and empty. *)
Definition empty_event_post : Ingest.Event :=
  form_post [("event", ""); ("userId", "u1"); ("ts", "1700000000000")].

Definition abc_ts_post : Ingest.Event :=
  form_post [("event", "heartbeat"); ("userId", "u1"); ("ts", "abc")].

(** Timestamps that start with an integer and go on with something else. *)
Definition trailing_ts_post : Ingest.Event :=
  form_post [("event", "heartbeat"); ("userId", "u1"); ("ts", "12abc")].

Definition exponent_ts_post : Ingest.Event :=
  form_post [("event", "heartbeat"); ("userId", "u1"); ("ts", "1.7e12")].

Definition text_post : Ingest.Event :=
  Ingest.mkEvent (Some (Ingest.mkPostData "text/plain" "event=heartbeat")) [].

(** A JSON post whose ts is the number 0. *)
Definition zero_ts_object : jsval :=
  JObj [("event", JStr "heartbeat"); ("userId", JStr "u1"); ("ts", JNum "0")].

Definition zero_ts_text : string := default "" (JSON_stringify zero_ts_object).

Definition reads_zero_ts : string -> jsval + string :=
  fun text => if String.eqb text zero_ts_text then inl zero_ts_object
              else inr "Unexpected token".

Definition zero_ts_post : Ingest.Event :=
  Ingest.mkEvent (Some (Ingest.mkPostData Ingest.json_type zero_ts_text)) [].

(** A page that was never configured, and one with an endpoint saved. *)
Definition fresh_page : Beacon.Page :=
  Beacon.mkPage ∅ "" "" "" [] [] [] "/" "Mozilla/5.0".

Definition configured_page : Beacon.Page :=
  Beacon.mkPage {[ "gas_url" := "https://example.google.com/exec" ]} "" "" "" [] [] []
    "/" "Mozilla/5.0".

Definition cta_A : Beacon.Payload := Beacon.mkPayload "cta_click" (Some "A") None.

Definition ok_response : Beacon.FetchOutcome :=
  Beacon.Response 200 (Normal (JObj [("ok", JBool true)])).

(** A service whose header write fails, once the sheet is made. *)
Definition svc_header_down : Ingest.service_call -> option string :=
  fun c => match c with
           | Ingest.SetValues => Some "Service Spreadsheets timed out"
           | _ => None
           end.

(** A click with a variant and metadata, as a form post. *)
Definition click_post : Ingest.Event :=
  form_post [("event", "cta_click"); ("variant", "B"); ("userId", "u2");
             ("ts", "1700000000001"); ("meta", "{}")].

(** One millisecond past the last date there is. *)
Definition late_post : Ingest.Event :=
  form_post [("event", "heartbeat"); ("userId", "u1"); ("ts", "8640000000000001")].

(** The heartbeat as a JSON body, and a parser that reads it. *)
Definition heartbeat_text : string :=
  default "" (JSON_stringify (Ingest.parameter_object heartbeat_post)).

Definition reads_heartbeat : string -> jsval + string :=
  fun text => if String.eqb text heartbeat_text
              then inl (Ingest.parameter_object heartbeat_post)
              else inr "Unexpected token".

Definition heartbeat_json_post : Ingest.Event :=
  Ingest.mkEvent (Some (Ingest.mkPostData Ingest.json_type heartbeat_text)) [].

(** A JSON body that is an array. *)
Definition reads_array : string -> jsval + string :=
  fun _ => inl (JArr [JStr "heartbeat"; JStr "u1"; JStr "1700000000000"]).

Definition array_post : Ingest.Event :=
  Ingest.mkEvent (Some (Ingest.mkPostData Ingest.json_type "[]")) [].

(** A script bound to one document and configured for another. *)
Definition configured_world : Ingest.World :=
  Ingest.mkWorld {[ "SPREADSHEET_ID" := "chosen" ]} (Some "bound")
    {[ "bound" := ∅; "chosen" := ∅ ]}.

(** The same, with the configured document gone. *)
Definition dangling_world : Ingest.World :=
  Ingest.mkWorld {[ "SPREADSHEET_ID" := "chosen" ]} (Some "bound") {[ "bound" := ∅ ]}.

(** A page whose input holds a URL that does not end in /exec. *)
Definition typing_page : Beacon.Page :=
  Beacon.mkPage ∅ " https://script.google.com/macros/s/abc/dev " "" "" [] [] [] "/"
    "Mozilla/5.0".

End Samples.

(** * Properties *)

(** ** Facts about the platform operations *)
Module JSFacts.
Import JS.

Lemma is_digit_cases (c : ascii) :
  is_digit c = true ->
  In c ["0"; "1"; "2"; "3"; "4"; "5"; "6"; "7"; "8"; "9"]%char.
Proof.
  destruct c as [b0 b1 b2 b3 b4 b5 b6 b7].
  destruct b0, b1, b2, b3, b4, b5, b6, b7; cbv; intros H;
    try discriminate H; tauto.
Qed.

Lemma digit_char_is_digit (d : Z) : 0 <= d < 10 -> is_digit (digit_char d) = true.
Proof.
  intros H.
  assert (Hd : d = 0 \/ d = 1 \/ d = 2 \/ d = 3 \/ d = 4 \/ d = 5 \/ d = 6 \/ d = 7
               \/ d = 8 \/ d = 9) by lia.
  repeat (destruct Hd as [-> | Hd]; [reflexivity |]). subst d. reflexivity.
Qed.

Lemma radix_digit_digit_char (d : Z) :
  0 <= d < 10 -> radix_digit 10 (digit_char d) = Some d.
Proof.
  intros H.
  assert (Hd : d = 0 \/ d = 1 \/ d = 2 \/ d = 3 \/ d = 4 \/ d = 5 \/ d = 6 \/ d = 7
               \/ d = 8 \/ d = 9) by lia.
  repeat (destruct Hd as [-> | Hd]; [reflexivity |]). subst d. reflexivity.
Qed.

Lemma to_digits_S (f : nat) (radix n : Z) (acc : string) :
  to_digits (S f) radix n acc =
  if n <? radix then String (digit_char (n mod radix)) acc
  else to_digits f radix (n / radix) (String (digit_char (n mod radix)) acc).
Proof. reflexivity. Qed.

(** Reading back the digits [to_digits] wrote gives the number written. *)
Lemma read_to_digits (f : nat) :
  forall (m : Z) (rest : string) (seen : bool),
    0 <= m < 2 ^ (Z.of_nat f + 1) ->
    read_digits 10 (to_digits (S f) 10 m rest) 0 seen = read_digits 10 rest m true.
Proof.
  induction f as [| f IH]; intros m rest seen Hm.
  - assert (m < 10) by (change (2 ^ (Z.of_nat 0 + 1)) with 2 in Hm; lia).
    rewrite to_digits_S. replace (m <? 10) with true by (symmetry; apply Z.ltb_lt; lia).
    cbn [read_digits]. rewrite radix_digit_digit_char by (apply Z.mod_pos_bound; lia).
    rewrite Z.mod_small by lia. reflexivity.
  - rewrite to_digits_S. destruct (m <? 10) eqn:Hlt.
    + apply Z.ltb_lt in Hlt. cbn [read_digits].
      rewrite radix_digit_digit_char by (apply Z.mod_pos_bound; lia).
      rewrite Z.mod_small by lia. reflexivity.
    + apply Z.ltb_ge in Hlt.
      rewrite IH.
      * cbn [read_digits]. rewrite radix_digit_digit_char by (apply Z.mod_pos_bound; lia).
        f_equal. pose proof (Z.div_mod m 10). lia.
      * split; [apply Z.div_pos; lia |].
        apply Z.div_lt_upper_bound; [lia |].
        replace (Z.of_nat (S f) + 1) with (Z.succ (Z.of_nat f + 1)) in Hm by lia.
        rewrite Z.pow_succ_r in Hm by lia. lia.
Qed.

Lemma to_digits_all_digits (f : nat) :
  forall (m : Z) (rest : string),
    0 <= m -> all_digits rest = true -> all_digits (to_digits f 10 m rest) = true.
Proof.
  induction f as [| f IH]; intros m rest Hm Hrest; [exact Hrest |].
  rewrite to_digits_S.
  assert (Hd : all_digits (String (digit_char (m mod 10)) rest) = true).
  { cbn [all_digits]. rewrite digit_char_is_digit by (apply Z.mod_pos_bound; lia).
    exact Hrest. }
  destruct (m <? 10); [exact Hd |].
  apply IH; [apply Z.div_pos; lia | exact Hd].
Qed.

Lemma to_digits_nonempty (f : nat) (m : Z) (rest : string) :
  to_digits (S f) 10 m rest <> EmptyString.
Proof.
  revert m rest. induction f as [| f IH]; intros m rest.
  - rewrite to_digits_S. destruct (m <? 10); discriminate.
  - rewrite to_digits_S. destruct (m <? 10); [discriminate |]. apply IH.
Qed.

Lemma read_digits_seen (radix : Z) (s : string) :
  forall acc, snd (read_digits radix s acc true) = true.
Proof.
  induction s as [| c s IH]; intros acc; [reflexivity |].
  cbn [read_digits]. destruct (radix_digit radix c); [apply IH | reflexivity].
Qed.

Lemma leading_space_digit (c : ascii) (s : string) :
  is_digit c = true -> leading_space (String c s) = None.
Proof.
  intros H. apply is_digit_cases in H. cbn [In] in H.
  repeat (destruct H as [<- | H]; [reflexivity |]). contradiction.
Qed.

Lemma trimStart_digit (c : ascii) (s : string) :
  is_digit c = true -> trimStart (String c s) = String c s.
Proof.
  intros H. unfold trimStart. cbn [String.length trimStart_upto].
  rewrite leading_space_digit by exact H. reflexivity.
Qed.

(** On a run of decimal digits there is no radix prefix to strip. *)
Lemma parse_magnitude_digits (s : string) :
  s <> EmptyString -> all_digits s = true ->
  parse_magnitude s = Some (fst (read_digits 10 s 0 false)).
Proof.
  intros Hne Hall. destruct s as [| c s]; [contradiction |].
  cbn [all_digits] in Hall. apply andb_prop in Hall as [Hc Hs].
  assert (Hseen : forall d, radix_digit 10 c = Some d ->
            (let '(n, seen) := read_digits 10 (String c s) 0 false in
             if seen then Some n else None)
            = Some (fst (read_digits 10 (String c s) 0 false))).
  { intros d Hd. cbn [read_digits]. rewrite Hd.
    pose proof (read_digits_seen 10 s (0 * 10 + d)) as Hsn.
    destruct (read_digits 10 s (0 * 10 + d) true) as [n seen].
    cbn in Hsn. subst seen. reflexivity. }
  apply is_digit_cases in Hc. cbn [In] in Hc.
  destruct Hc as [<- | Hc].
  - destruct s as [| c2 s].
    + reflexivity.
    + cbn [all_digits] in Hs. apply andb_prop in Hs as [Hc2 Hs].
      apply is_digit_cases in Hc2. cbn [In] in Hc2.
      repeat (destruct Hc2 as [<- | Hc2];
              [unfold parse_magnitude; cbv iota beta; apply (Hseen 0); reflexivity |]).
      contradiction.
  - repeat (destruct Hc as [<- | Hc];
            [unfold parse_magnitude; cbv iota beta; eapply Hseen; reflexivity |]).
    contradiction.
Qed.

Lemma parseInt_string_digits (s : string) :
  s <> EmptyString -> all_digits s = true ->
  parseInt_string s = Some (fst (read_digits 10 s 0 false)).
Proof.
  intros Hne Hall. destruct s as [| c s]; [contradiction |].
  pose proof Hall as Hall'. cbn [all_digits] in Hall'.
  apply andb_prop in Hall' as [Hc _].
  unfold parseInt_string. rewrite trimStart_digit by exact Hc.
  rewrite <- (parse_magnitude_digits (String c s) Hne Hall).
  apply is_digit_cases in Hc. cbn [In] in Hc.
  repeat (destruct Hc as [<- | Hc]; [reflexivity |]). contradiction.
Qed.

Lemma log2_fuel (n : Z) : 0 <= n -> 0 <= n < 2 ^ (Z.of_nat (Z.to_nat (Z.log2 n)) + 1).
Proof.
  intros Hn. split; [exact Hn |].
  rewrite Z2Nat.id by apply Z.log2_nonneg.
  destruct (Z.eq_dec n 0) as [-> | Hnz]; [reflexivity |].
  apply Z.log2_spec. lia.
Qed.

(** The decimal text of an integer reads back as that integer. *)
Lemma parseInt_string_Z_toString (n : Z) : parseInt_string (Z_toString 10 n) = Some n.
Proof.
  unfold Z_toString. destruct (n <? 0) eqn:Hneg.
  - apply Z.ltb_lt in Hneg.
    set (ds := to_digits (S (Z.to_nat (Z.log2 (- n)))) 10 (- n) "").
    assert (Hne : ds <> EmptyString) by apply to_digits_nonempty.
    assert (Hall : all_digits ds = true)
      by (apply to_digits_all_digits; [lia | reflexivity]).
    change ("-" +:+ ds) with (String "-" ds).
    unfold parseInt_string, trimStart. cbn [String.length trimStart_upto].
    change (leading_space (String "-" ds)) with (@None string). cbv iota beta.
    rewrite (parse_magnitude_digits ds Hne Hall). unfold ds.
    rewrite read_to_digits by (apply log2_fuel; lia).
    cbn. f_equal. lia.
  - apply Z.ltb_ge in Hneg.
    set (ds := to_digits (S (Z.to_nat (Z.log2 n))) 10 n "").
    assert (Hne : ds <> EmptyString) by apply to_digits_nonempty.
    assert (Hall : all_digits ds = true)
      by (apply to_digits_all_digits; [lia | reflexivity]).
    rewrite (parseInt_string_digits ds Hne Hall). unfold ds.
    rewrite read_to_digits by (apply log2_fuel; lia).
    reflexivity.
Qed.

End JSFacts.

(** ** Facts about the ingest endpoint *)
Module IngestFacts.
Import JS Ingest.

Lemma obj_lookup_parameter (k : string) (fields : list (string * string)) :
  obj_lookup k (map (fun kv => (fst kv, JStr (snd kv))) fields) = JStr <$> assoc k fields.
Proof.
  induction fields as [| [k' v] fields IH]; [reflexivity |].
  cbn. destruct (String.eqb k k'); [reflexivity | exact IH].
Qed.

Lemma Get_parameter (e : Event) (k : string) :
  Get (parameter_object e) k
  = Normal (match assoc k (parameter e) with Some s => JStr s | None => JUndefined end).
Proof.
  unfold parameter_object, Get. rewrite obj_lookup_parameter.
  destruct (assoc k (parameter e)); reflexivity.
Qed.

Lemma sheet_rows_with_sheet (doc name : string) (rows : list Row) (w : World) :
  sheet_rows doc name (with_sheet doc name rows w) = Some rows.
Proof.
  unfold sheet_rows, with_sheet. cbn. rewrite lookup_insert_eq. cbn.
  apply lookup_insert_eq.
Qed.

Lemma with_sheet_again (doc name : string) (r1 r2 : list Row) (w : World) :
  with_sheet doc name r2 (with_sheet doc name r1 w) = with_sheet doc name r2 w.
Proof.
  unfold with_sheet. cbn. rewrite lookup_insert_eq. cbn.
  rewrite !insert_insert_eq. reflexivity.
Qed.

Lemma string_eqb_empty (s : string) : String.eqb s "" = false <-> s <> "".
Proof. rewrite <- String.eqb_neq. tauto. Qed.

(** Unfolds the monad and the service calls, answering each call that the
    oracle [Hsvc] lets through. *)
Ltac step Hsvc :=
  repeat (progress (cbv beta iota zeta delta
                      [bindM ret throw lift modify reach getProperty openById
                       getActiveSpreadsheet getSheetByName insertSheet initSheetHeaders
                       setValues_row1 appendRow fst snd];
                    rewrite ?Hsvc)).

(** What [target_spreadsheet] answers is the document the script opens. *)
Lemma target_spreadsheet_inv (w : World) (doc : string) :
  target_spreadsheet w = Some doc ->
  (exists ss, documents w !! doc = Some ss)
  /\ (if ToBoolean (match script_properties w !! "SPREADSHEET_ID" with
                    | Some s => JStr s
                    | None => JNull
                    end)
      then script_properties w !! "SPREADSHEET_ID" = Some doc
      else active w = Some doc).
Proof.
  unfold target_spreadsheet. intros H.
  destruct (ToBoolean _).
  - destruct (script_properties w !! "SPREADSHEET_ID") as [s |]; [| discriminate].
    cbn in H. destruct (documents w !! s) eqn:Hd; [| discriminate].
    injection H as <-. eauto.
  - destruct (active w) as [a |]; [| discriminate].
    cbn in H. destruct (documents w !! a) eqn:Hd; [| discriminate].
    injection H as <-. eauto.
Qed.

(** With the service answering, the sheet is found, or made with its
    header row. *)
Lemma getOrCreateLogSheet_ready (svc : service_call -> option string)
    (w : World) (doc : string) :
  (forall c, svc c = None) ->
  target_spreadsheet w = Some doc ->
  getOrCreateLogSheet svc w
  = (Normal (doc, "logs"),
     match sheet_rows doc "logs" w with
     | Some _ => w
     | None => with_sheet doc "logs" [headers] w
     end).
Proof.
  intros Hsvc Htarget.
  apply target_spreadsheet_inv in Htarget as [[ss Hdoc] Hsel].
  unfold getOrCreateLogSheet. step Hsvc.
  destruct (ToBoolean _).
  - rewrite Hsel. cbn [default from_option id]. rewrite Hdoc. cbv beta iota.
    destruct (sheet_rows doc "logs" w) eqn:Hrows; [reflexivity |].
    rewrite sheet_rows_with_sheet, with_sheet_again. reflexivity.
  - rewrite Hsel, Hdoc. cbv beta iota.
    destruct (sheet_rows doc "logs" w) eqn:Hrows; [reflexivity |].
    rewrite sheet_rows_with_sheet, with_sheet_again. reflexivity.
Qed.

Ltac fresh_sheet :=
  first [ left; reflexivity
        | right; eexists; split;
          [ eassumption | first [ left; reflexivity | right; reflexivity ] ] ].

Ltac leaf :=
  first [ left; eexists; split; reflexivity
        | right; do 2 eexists; split;
          [ reflexivity | split; [ discriminate | fresh_sheet ] ] ].

Ltac split_calls svc w :=
  repeat (cbv beta iota zeta;
          cbn [ToBoolean default from_option id option_bind];
          try solve [leaf];
          match goal with
          | |- context [sheet_rows ?d "logs" (with_sheet ?d "logs" ?r ?w')] =>
              rewrite (sheet_rows_with_sheet d "logs" r w')
          | |- context [with_sheet ?d ?n ?r2 (with_sheet ?d ?n ?r1 ?w')] =>
              rewrite (with_sheet_again d n r1 r2 w')
          | |- context [script_properties w !! ?k] =>
              destruct (script_properties w !! k) as [? |] eqn:?
          | |- context [negb (String.eqb ?s "")] =>
              destruct (negb (String.eqb s "")) eqn:?
          | |- context [svc GetProperty] => destruct (svc GetProperty) as [? |] eqn:?
          | |- context [svc OpenById] => destruct (svc OpenById) as [? |] eqn:?
          | |- context [svc GetActiveSpreadsheet] =>
              destruct (svc GetActiveSpreadsheet) as [? |] eqn:?
          | |- context [active w] => destruct (active w) as [? |] eqn:?
          | |- context [documents w !! ?i] =>
              destruct (documents w !! i) as [? |] eqn:?
          | |- context [svc GetSheetByName] =>
              destruct (svc GetSheetByName) as [? |] eqn:?
          | |- context [sheet_rows ?d "logs" w] =>
              destruct (sheet_rows d "logs" w) as [? |] eqn:?
          | |- context [svc InsertSheet] => destruct (svc InsertSheet) as [? |] eqn:?
          | |- context [svc SetValues] => destruct (svc SetValues) as [? |] eqn:?
          | |- context [svc FormatHeader] => destruct (svc FormatHeader) as [? |] eqn:?
          end).

(** Whatever the service does: either the sheet is there at the end, in
    the target document, or the call threw something that is not the
    script's own [Error] and left at most a fresh sheet behind. *)
Lemma getOrCreateLogSheet_cases (svc : service_call -> option string) (w : World) :
  (exists doc,
      target_spreadsheet w = Some doc
      /\ getOrCreateLogSheet svc w
         = (Normal (doc, "logs"),
            match sheet_rows doc "logs" w with
            | Some _ => w
            | None => with_sheet doc "logs" [headers] w
            end))
  \/ (exists err w1,
         getOrCreateLogSheet svc w = (Throw err, w1)
         /\ name err <> "Error"
         /\ at_most_fresh_sheet w w1).
Proof.
  unfold getOrCreateLogSheet, target_spreadsheet, at_most_fresh_sheet.
  cbv beta iota zeta delta
    [bindM ret throw lift modify reach getProperty openById getActiveSpreadsheet
     getSheetByName insertSheet initSheetHeaders setValues_row1 appendRow fst snd].
  split_calls svc w.
  all: simplify_eq; try congruence.
  all: left; eexists; split;
    [ cbn; repeat match goal with H : _ = _ |- _ => rewrite H end; reflexivity
    | repeat match goal with H : _ = _ |- _ => rewrite H end; reflexivity ].
Qed.


(** *** The stages of [doPost] *)

Section Stages.
Variable svc : service_call -> option string.
Variable JSON_parse : string -> jsval + string.

Lemma doPost_parse_throw (e : Event) (w : World) (err : Error) :
  parse_params JSON_parse e = Throw err ->
  doPost svc JSON_parse e w = (failure_output err, w).
Proof.
  intros H. unfold doPost, doPost_try, bindM, lift. rewrite H. reflexivity.
Qed.

Lemma doPost_validate_throw (e : Event) (w : World) (params : jsval) (err : Error) :
  parse_params JSON_parse e = Normal params ->
  validate params = Throw err ->
  doPost svc JSON_parse e w = (failure_output err, w).
Proof.
  intros H1 H2. unfold doPost, doPost_try, bindM, lift. rewrite H1, H2. reflexivity.
Qed.

Lemma doPost_row_throw (e : Event) (w : World) (params : jsval) (err : Error) :
  parse_params JSON_parse e = Normal params ->
  validate params = Normal tt ->
  rowData_of params = Throw err ->
  doPost svc JSON_parse e w = (failure_output err, w).
Proof.
  intros H1 H2 H3. unfold doPost, doPost_try, bindM, lift.
  rewrite H1, H2, H3. reflexivity.
Qed.

Lemma doPost_append (e : Event) (w : World) (params : jsval) (rowData : Row)
    (doc : string) :
  (forall c, svc c = None) ->
  target_spreadsheet w = Some doc ->
  parse_params JSON_parse e = Normal params ->
  validate params = Normal tt ->
  rowData_of params = Normal rowData ->
  doPost svc JSON_parse e w = (success_output, appended doc rowData w).
Proof.
  intros Hsvc Ht H1 H2 H3. unfold doPost, doPost_try, bindM at 1 2 3 4, lift.
  rewrite H1, H2, H3, (getOrCreateLogSheet_ready svc w doc Hsvc Ht).
  unfold appended. step Hsvc.
  destruct (sheet_rows doc "logs" w) as [rows |] eqn:Hrows.
  - rewrite Hrows. reflexivity.
  - rewrite sheet_rows_with_sheet, with_sheet_again. reflexivity.
Qed.

Lemma Get_prop (params : jsval) (k : string) :
  params <> JNull -> params <> JUndefined -> Get params k = Normal (prop params k).
Proof. destruct params; intros; try reflexivity; congruence. Qed.

Lemma validate_spec (params : jsval) :
  params <> JNull -> params <> JUndefined ->
  validate params
  = if required_present params then Normal tt else Throw missing_parameters.
Proof.
  intros Hn Hu. unfold validate, absent, required_present.
  rewrite !Get_prop by assumption. cbn [bind].
  destruct (ToBoolean (prop params "event")); [| reflexivity].
  destruct (ToBoolean (prop params "userId")); [| reflexivity].
  destruct (ToBoolean (prop params "ts")); reflexivity.
Qed.

(** [field || ''] on a form field that may be missing. *)
Lemma or_else_field (o : option string) :
  or_else (match o with Some s => JStr s | None => JUndefined end) (JStr "")
  = JStr (default "" o).
Proof.
  destruct o as [v |]; [| reflexivity].
  unfold or_else. cbn. destruct (String.eqb_spec v ""); [subst v |]; reflexivity.
Qed.

(** The row of a decoded form whose timestamp reads as [n]. *)
Lemma rowData_of_form (e : Event) (ev uid t : string) (n : Z) :
  assoc "event" (parameter e) = Some ev ->
  assoc "userId" (parameter e) = Some uid ->
  assoc "ts" (parameter e) = Some t ->
  parseInt_string t = Some n ->
  Z.abs n <= 8640000000000000 ->
  rowData_of (parameter_object e)
  = Normal [JStr (iso_text n); JStr ev;
            JStr (default "" (assoc "variant" (parameter e))); JStr uid;
            JStr (default "" (assoc "meta" (parameter e)))].
Proof.
  intros He Hu Ht Hn Hle. unfold rowData_of. rewrite !Get_parameter, He, Hu, Ht.
  cbn [bind parseInt ToString]. rewrite Hn. cbn [bind Date_new].
  replace (Z.abs n <=? 8640000000000000) with true by (symmetry; apply Z.leb_le; lia).
  cbn [toISOString bind]. rewrite !or_else_field. reflexivity.
Qed.

(** A form post with its three required fields filled in, a timestamp
    in the range of dates, and a service that answers: the row is
    appended and the answer is the success output. *)
Lemma doPost_form_row (e : Event) (w : World) (doc raw ev uid t : string) (n : Z) :
  (forall c, svc c = None) ->
  target_spreadsheet w = Some doc ->
  postData e = Some (mkPostData form_type raw) ->
  assoc "event" (parameter e) = Some ev -> ev <> "" ->
  assoc "userId" (parameter e) = Some uid -> uid <> "" ->
  assoc "ts" (parameter e) = Some t ->
  parseInt_string t = Some n ->
  Z.abs n <= 8640000000000000 ->
  doPost svc JSON_parse e w
  = (success_output,
     appended doc [JStr (iso_text n); JStr ev;
                   JStr (default "" (assoc "variant" (parameter e))); JStr uid;
                   JStr (default "" (assoc "meta" (parameter e)))] w).
Proof.
  intros Hsvc Htgt Hpd He Hev Hu Huid Ht Hn Hle.
  assert (Htne : t <> "") by (intros ->; discriminate Hn).
  apply (doPost_append e w (parameter_object e)); try assumption.
  - unfold parse_params. rewrite Hpd. reflexivity.
  - rewrite validate_spec by discriminate.
    unfold required_present, prop, parameter_object.
    rewrite !obj_lookup_parameter, He, Hu, Ht. cbn.
    apply string_eqb_empty in Hev, Huid, Htne. rewrite Hev, Huid, Htne. reflexivity.
  - apply (rowData_of_form e ev uid t n); assumption.
Qed.

End Stages.

Lemma success_output_text :
  content success_output = "{" +:+ dquote +:+ "ok" +:+ dquote +:+ ":true}".
Proof. reflexivity. Qed.

Lemma failure_output_text (err : Error) :
  content (failure_output err)
  = "{" +:+ dquote +:+ "ok" +:+ dquote +:+ ":false," +:+ dquote +:+ "error" +:+ dquote
    +:+ ":" +:+ QuoteJSONString (message err) +:+ "}".
Proof. reflexivity. Qed.

(** C1. A form post carrying event "heartbeat", userId "u1" and ts
    "1700000000000", with neither variant nor meta, handled while the
    spreadsheet service answers and the target document exists: the store
    afterwards is the store before with exactly the row
    ["2023-11-14T22:13:20.000Z"; "heartbeat"; ""; "u1"; ""] appended to the
    log sheet (after the header row if the sheet had to be made), and the
    response is the JSON text of {ok:true}. *)
Theorem C1_heartbeat_row (svc : service_call -> option string)
    (JSON_parse : string -> jsval + string) (e : Event) (w : World) (doc raw : string) :
  (forall c, svc c = None) ->
  target_spreadsheet w = Some doc ->
  postData e = Some (mkPostData form_type raw) ->
  assoc "event" (parameter e) = Some "heartbeat" ->
  assoc "userId" (parameter e) = Some "u1" ->
  assoc "ts" (parameter e) = Some "1700000000000" ->
  assoc "variant" (parameter e) = None ->
  assoc "meta" (parameter e) = None ->
  doPost svc JSON_parse e w
  = (success_output,
     appended doc [JStr "2023-11-14T22:13:20.000Z"; JStr "heartbeat"; JStr "";
                   JStr "u1"; JStr ""] w)
  /\ content success_output = "{" +:+ dquote +:+ "ok" +:+ dquote +:+ ":true}"
  /\ mimeType success_output = MimeJSON.
Proof.
  intros Hsvc Htgt Hpd He Hu Ht Hv Hm. split; [| split; reflexivity].
  rewrite (doPost_form_row svc JSON_parse e w doc raw "heartbeat" "u1" "1700000000000"
             1700000000000) by (try assumption; try discriminate; reflexivity).
  rewrite Hv, Hm. reflexivity.
Qed.

Lemma C1_heartbeat_row_witness :
  doPost Samples.svc_up Samples.no_json Samples.heartbeat_post Samples.bound_world
  = (success_output,
     appended "bound" [JStr "2023-11-14T22:13:20.000Z"; JStr "heartbeat"; JStr "";
                       JStr "u1"; JStr ""] Samples.bound_world).
Proof.
  apply (C1_heartbeat_row Samples.svc_up Samples.no_json Samples.heartbeat_post
           Samples.bound_world "bound"
           (Wire.serialize (parameter Samples.heartbeat_post)));
    reflexivity.
Defined.

(** *** Failures *)

Lemma sheet_rows_with_sheet_ne (doc name d n : string) (rows : list Row) (w : World) :
  (d, n) <> (doc, name) ->
  sheet_rows d n (with_sheet doc name rows w) = sheet_rows d n w.
Proof.
  intros Hne. unfold sheet_rows, with_sheet. cbn.
  destruct (decide (doc = d)) as [-> | Hd].
  - rewrite lookup_insert_eq. cbn.
    rewrite lookup_insert_ne by congruence.
    destruct (documents w !! d); [reflexivity | apply lookup_empty].
  - rewrite lookup_insert_ne by exact Hd. reflexivity.
Qed.

(** A fresh sheet takes no row away and adds none to a sheet that was
    there. *)
Lemma at_most_fresh_sheet_keeps_rows (w w' : World) :
  at_most_fresh_sheet w w' ->
  forall d n rows, sheet_rows d n w = Some rows -> sheet_rows d n w' = Some rows.
Proof.
  intros [-> | (doc & Hnone & [-> | ->])] d n rows Hrows; [exact Hrows | |].
  all: rewrite sheet_rows_with_sheet_ne; [exact Hrows |].
  all: intros Heq; injection Heq as -> ->; congruence.
Qed.

(** Induction on values, through the elements of arrays and the
    property values of objects. *)
Lemma jsval_nested_ind (P : jsval -> Prop)
    (HU : P JUndefined) (HN : P JNull) (HB : forall b, P (JBool b))
    (HNum : forall r, P (JNum r)) (HS : forall s, P (JStr s))
    (HA : forall elems, Forall P elems -> P (JArr elems))
    (HO : forall ps, Forall (fun kv => P (snd kv)) ps -> P (JObj ps)) :
  forall v, P v.
Proof.
  exact (fix F (v : jsval) : P v :=
           match v with
           | JUndefined => HU
           | JNull => HN
           | JBool b => HB b
           | JNum r => HNum r
           | JStr s => HS s
           | JArr elems =>
               HA elems
                 ((fix G (l : list jsval) : Forall P l :=
                     match l with
                     | [] => List.Forall_nil P
                     | x :: rest => List.Forall_cons P x rest (F x) (G rest)
                     end) elems)
           | JObj ps =>
               HO ps
                 ((fix G (l : list (string * jsval)) : Forall (fun kv => P (snd kv)) l :=
                     match l with
                     | [] => List.Forall_nil _
                     | kv :: rest => List.Forall_cons _ kv rest (F (snd kv)) (G rest)
                     end) ps)
           end).
Qed.

Lemma ToString_JArr (elems : list jsval) : ToString (JArr elems) = join_elems elems.
Proof. reflexivity. Qed.

Lemma join_elems_cons (x : jsval) (rest : list jsval) :
  join_elems (x :: rest)
  = bind (match x with
          | JUndefined | JNull => Normal ""
          | _ => ToString x
          end)
      (fun sx =>
         match rest with
         | [] => Normal sx
         | _ => bind (join_elems rest) (fun sr => Normal (sx +:+ "," +:+ sr))
         end).
Proof. reflexivity. Qed.

(** [ToString] throws nothing but a TypeError. *)
Lemma ToString_throws : forall (v : jsval) (err : Error),
    ToString v = Throw err -> name err = "TypeError".
Proof.
  intros v. induction v as [| | b | r | s | elems IH | ps _] using jsval_nested_ind;
    intros err; try discriminate.
  - destruct b; discriminate.
  - rewrite ToString_JArr. induction IH as [| x rest Hx _ IHrest]; [discriminate |].
    rewrite join_elems_cons. intros H.
    destruct (match x with
              | JUndefined | JNull => Normal ""
              | _ => ToString x
              end) as [sx | e'] eqn:Hcx.
    + cbn [bind] in H. destruct rest as [| y rest']; [discriminate H |].
      destruct (join_elems (y :: rest')) as [sr | e''] eqn:Hjoin; [discriminate H |].
      cbn [bind] in H. injection H as <-. apply IHrest. reflexivity.
    + cbn [bind] in H. injection H as <-.
      destruct x; try discriminate Hcx; apply Hx; exact Hcx.
  - cbn [ToString]. destruct (obj_lookup "toString" ps); [| discriminate].
    intros H. injection H as <-. reflexivity.
Qed.

Lemma rowData_of_throws (params : jsval) (err : Error) :
  rowData_of params = Throw err -> name err = "TypeError" \/ name err = "RangeError".
Proof.
  unfold rowData_of. intros H.
  destruct (Get params "ts") as [ts | e1] eqn:Hts.
  2:{ cbn [bind] in H. injection H as <-. destruct params; try discriminate Hts;
      injection Hts as <-; left; reflexivity. }
  assert (Hget : forall k, exists v, Get params k = Normal v).
  { intros k. destruct params; try discriminate Hts; cbn; eauto. }
  cbn [bind] in H. unfold parseInt in H.
  destruct (ToString ts) as [str | e2] eqn:Hstr.
  2:{ cbn [bind] in H. injection H as <-. left. exact (ToString_throws _ _ Hstr). }
  cbn [bind] in H.
  destruct (toISOString (Date_new (parseInt_string str))) as [iso | e3] eqn:Hiso.
  2:{ cbn [bind] in H. injection H as <-. right.
      unfold toISOString in Hiso. destruct (Date_new _); [discriminate |].
      injection Hiso as <-. reflexivity. }
  cbn [bind] in H.
  destruct (Hget "event") as [v1 H1], (Hget "variant") as [v2 H2],
    (Hget "userId") as [v3 H3], (Hget "meta") as [v4 H4].
  rewrite H1, H2, H3, H4 in H. discriminate H.
Qed.

Section Outcomes.
Variable svc : service_call -> option string.
Variable JSON_parse : string -> jsval + string.

(** Past the making of the row, [doPost_try] either appends it or stops
    on something thrown by the service, never on an [Error] of the
    script's own. *)
Lemma doPost_try_store (e : Event) (w : World) (params : jsval) (rowData : Row) :
  parse_params JSON_parse e = Normal params ->
  validate params = Normal tt ->
  rowData_of params = Normal rowData ->
  (exists doc, target_spreadsheet w = Some doc
               /\ doPost_try svc JSON_parse e w
                  = (Normal success_output, appended doc rowData w))
  \/ (exists err w', doPost_try svc JSON_parse e w = (Throw err, w')
                     /\ name err <> "Error" /\ at_most_fresh_sheet w w').
Proof.
  intros Hp Hv Hr. unfold doPost_try.
  cbv beta iota zeta delta [bindM lift ret].
  rewrite Hp. cbv beta iota. rewrite Hv. cbv beta iota. rewrite Hr. cbv beta iota.
  destruct (getOrCreateLogSheet_cases svc w)
    as [(doc & Ht & ->) | (err & w1 & -> & Hname & Hfresh)].
  - cbv beta iota zeta delta [appendRow bindM reach modify throw ret fst snd].
    destruct (svc AppendRow) as [msg |] eqn:Happ.
    + right. do 2 eexists. split; [reflexivity |]. split; [discriminate |].
      destruct (sheet_rows doc "logs" w) eqn:Hrows; [left; reflexivity |].
      right. exists doc. auto.
    + left. exists doc. split; [exact Ht |]. unfold appended.
      destruct (sheet_rows doc "logs" w) as [rows |] eqn:Hrows.
      * rewrite Hrows. reflexivity.
      * rewrite sheet_rows_with_sheet, with_sheet_again. reflexivity.
  - right. eauto.
Qed.

Lemma doPost_rejected_before_store (e : Event) (w : World) (err : Error) :
  rejected_before_store JSON_parse e err ->
  doPost svc JSON_parse e w = (failure_output err, w).
Proof.
  intros [Hp | (params & Hp & [Hv | [Hv Hr]])].
  - apply doPost_parse_throw; exact Hp.
  - apply (doPost_validate_throw _ _ _ _ params); assumption.
  - apply (doPost_row_throw _ _ _ _ params); assumption.
Qed.

End Outcomes.

Lemma rowData_of_length (params : jsval) (rowData : Row) :
  rowData_of params = Normal rowData -> length rowData = 5%nat.
Proof.
  unfold rowData_of. intros H.
  repeat match type of H with
         | bind ?c _ = _ => destruct c; cbn [bind] in H; [| discriminate H]
         end.
  injection H as <-. reflexivity.
Qed.

(** *** The claims about the endpoint *)

(** C2, as amended. For a post in a supported encoding whose parameters
    were read (as anything but null), the [try] block stops on the
    validation error "Missing required parameters" if and only if one of
    event, userId and ts is falsy: not there, or there with an empty
    string (or, in a JSON body, with null, false or 0). When it does, the
    answer is the failure output with that message and the store is what
    it was. Nothing but those three properties is looked at, so variant and
    meta may be absent. *)
Theorem C2_validation (svc : service_call -> option string)
    (JSON_parse : string -> jsval + string) (e : Event) (w : World) (params : jsval) :
  parse_params JSON_parse e = Normal params ->
  params <> JNull -> params <> JUndefined ->
  (fst (doPost_try svc JSON_parse e w) = Throw missing_parameters
   <-> required_present params = false)
  /\ (required_present params = false ->
      doPost svc JSON_parse e w = (failure_output missing_parameters, w))
  /\ (forall ps ps',
         params = JObj ps ->
         (forall k, In k ["event"; "userId"; "ts"] -> obj_lookup k ps' = obj_lookup k ps) ->
         required_present (JObj ps') = required_present params).
Proof.
  intros Hp Hn Hu. pose proof (validate_spec params Hn Hu) as Hv.
  split; [| split].
  - destruct (required_present params) eqn:Hreq.
    + split; [| discriminate]. intros Htry. exfalso.
      destruct (rowData_of params) as [rowData | err] eqn:Hr.
      * destruct (doPost_try_store svc JSON_parse e w params rowData Hp Hv Hr)
          as [(doc & _ & Heq) | (err & w' & Heq & Hname & _)];
          rewrite Heq in Htry; cbn in Htry; [discriminate |].
        injection Htry as ->. apply Hname. reflexivity.
      * unfold doPost_try in Htry. cbv beta iota zeta delta [bindM lift ret] in Htry.
        rewrite Hp in Htry. cbv beta iota in Htry. rewrite Hv in Htry.
        cbv beta iota in Htry. rewrite Hr in Htry. cbn in Htry.
        injection Htry as ->.
        destruct (rowData_of_throws _ _ Hr) as [H | H]; discriminate H.
    + split; [reflexivity |]. intros _.
      unfold doPost_try. cbv beta iota zeta delta [bindM lift ret].
      rewrite Hp. cbv beta iota. rewrite Hv. reflexivity.
  - intros Hreq. rewrite Hreq in Hv.
    apply (doPost_validate_throw svc JSON_parse e w params); assumption.
  - intros ps ps' -> Hsame. unfold required_present, prop.
    rewrite !Hsame by (cbn; tauto). reflexivity.
Qed.

Lemma C2_validation_witness :
  doPost Samples.svc_up Samples.no_json Samples.empty_event_post Samples.bound_world
  = (failure_output missing_parameters, Samples.bound_world).
Proof.
  apply (C2_validation Samples.svc_up Samples.no_json Samples.empty_event_post
           Samples.bound_world (parameter_object Samples.empty_event_post));
    [reflexivity | discriminate | discriminate | reflexivity].
Defined.

(** C2 without the amendment fails. In the first post all three required
    fields are in the form, none is missing, and it is turned down with
    the validation error because the event field is empty. In the second,
    a JSON body, ts is there with the integer 0, and it is turned down the
    same way. *)
Lemma C2_present_yet_rejected :
  (postData Samples.empty_event_post
   = Some (mkPostData form_type (Wire.serialize (parameter Samples.empty_event_post)))
   /\ assoc "event" (parameter Samples.empty_event_post) = Some ""
   /\ assoc "userId" (parameter Samples.empty_event_post) = Some "u1"
   /\ assoc "ts" (parameter Samples.empty_event_post) = Some "1700000000000"
   /\ doPost Samples.svc_up Samples.no_json Samples.empty_event_post Samples.bound_world
      = (failure_output missing_parameters, Samples.bound_world))
  /\ (postData Samples.zero_ts_post = Some (mkPostData json_type Samples.zero_ts_text)
      /\ Samples.reads_zero_ts Samples.zero_ts_text
         = inl (JObj [("event", JStr "heartbeat"); ("userId", JStr "u1"); ("ts", JNum "0")])
      /\ doPost Samples.svc_up Samples.reads_zero_ts Samples.zero_ts_post
           Samples.bound_world
         = (failure_output missing_parameters, Samples.bound_world)).
Proof. repeat split; reflexivity. Qed.

(** The text of the JSON body above. *)
Example zero_ts_text_chars :
  Samples.zero_ts_text
  = "{" +:+ dquote +:+ "event" +:+ dquote +:+ ":" +:+ dquote +:+ "heartbeat" +:+ dquote
    +:+ "," +:+ dquote +:+ "userId" +:+ dquote +:+ ":" +:+ dquote +:+ "u1" +:+ dquote
    +:+ "," +:+ dquote +:+ "ts" +:+ dquote +:+ ":0}".
Proof. reflexivity. Qed.

(** C6. A post whose declared content type is neither
    application/x-www-form-urlencoded nor application/json is answered
    with the JSON failure output, whose text is
    {ok:false, error:"Unsupported content type: <type>"}, and the store is
    what it was. *)
Theorem C6_unsupported_content_type (svc : service_call -> option string)
    (JSON_parse : string -> jsval + string) (e : Event) (w : World) (pd : PostData) :
  postData e = Some pd ->
  type pd <> form_type ->
  type pd <> json_type ->
  doPost svc JSON_parse e w
  = (failure_output (PlainError ("Unsupported content type: " +:+ type pd)), w)
  /\ content (failure_output (PlainError ("Unsupported content type: " +:+ type pd)))
     = "{" +:+ dquote +:+ "ok" +:+ dquote +:+ ":false," +:+ dquote +:+ "error" +:+ dquote
       +:+ ":" +:+ QuoteJSONString ("Unsupported content type: " +:+ type pd) +:+ "}"
  /\ mimeType (failure_output (PlainError ("Unsupported content type: " +:+ type pd)))
     = MimeJSON.
Proof.
  intros Hpd Hform Hjson. split; [| split; reflexivity].
  apply doPost_parse_throw. unfold parse_params. rewrite Hpd.
  apply String.eqb_neq in Hform, Hjson. rewrite Hform, Hjson. reflexivity.
Qed.

Lemma C6_unsupported_content_type_witness :
  doPost Samples.svc_up Samples.no_json Samples.text_post Samples.bound_world
  = (failure_output (PlainError "Unsupported content type: text/plain"),
     Samples.bound_world).
Proof.
  apply (C6_unsupported_content_type Samples.svc_up Samples.no_json Samples.text_post
           Samples.bound_world (mkPostData "text/plain" "event=heartbeat"));
    [reflexivity | discriminate | discriminate].
Defined.

(** C7, as amended. [doPost] answers every request, whatever the parser
    and the service do. Either the answer is the success output and
    exactly one row of five cells is appended to the log sheet of the
    target document; or the answer is the JSON failure output
    {ok:false, error:<message>}, no row is appended and every sheet that
    was there keeps its rows. A request turned down before the store is
    reached (content type, JSON syntax, validation, timestamp) leaves the
    store exactly as it was; a failure of the service may leave behind the
    "logs" sheet it had just made, empty or with the header row. *)
Theorem C7_every_request_answered (svc : service_call -> option string)
    (JSON_parse : string -> jsval + string) (e : Event) (w : World) :
  ((exists doc rowData,
       target_spreadsheet w = Some doc
       /\ length rowData = 5%nat
       /\ doPost svc JSON_parse e w = (success_output, appended doc rowData w))
   \/ (exists err w',
          doPost svc JSON_parse e w = (failure_output err, w')
          /\ at_most_fresh_sheet w w'
          /\ (forall d n rows,
                 sheet_rows d n w = Some rows -> sheet_rows d n w' = Some rows)))
  /\ (forall err,
         rejected_before_store JSON_parse e err ->
         doPost svc JSON_parse e w = (failure_output err, w))
  /\ (forall err,
         content (failure_output err)
         = "{" +:+ dquote +:+ "ok" +:+ dquote +:+ ":false," +:+ dquote +:+ "error"
           +:+ dquote +:+ ":" +:+ QuoteJSONString (message err) +:+ "}"
         /\ mimeType (failure_output err) = MimeJSON).
Proof.
  split; [| split].
  - destruct (parse_params JSON_parse e) as [params | err] eqn:Hp.
    2:{ right. exists err, w. split; [apply doPost_parse_throw; exact Hp |].
        split; [left; reflexivity | auto]. }
    destruct (validate params) as [[] | err] eqn:Hv.
    2:{ right. exists err, w.
        split; [apply (doPost_validate_throw _ _ _ _ params); assumption |].
        split; [left; reflexivity | auto]. }
    destruct (rowData_of params) as [rowData | err] eqn:Hr.
    2:{ right. exists err, w.
        split; [apply (doPost_row_throw _ _ _ _ params); assumption |].
        split; [left; reflexivity | auto]. }
    destruct (doPost_try_store svc JSON_parse e w params rowData Hp Hv Hr)
      as [(doc & Ht & Htry) | (err & w' & Htry & _ & Hfresh)].
    + left. exists doc, rowData. split; [exact Ht |].
      split; [exact (rowData_of_length _ _ Hr) |].
      unfold doPost. rewrite Htry. reflexivity.
    + right. exists err, w'. split; [unfold doPost; rewrite Htry; reflexivity |].
      split; [exact Hfresh | exact (at_most_fresh_sheet_keeps_rows _ _ Hfresh)].
  - intros err. apply doPost_rejected_before_store.
  - intros err. split; reflexivity.
Qed.

Lemma C7_every_request_answered_witness :
  doPost Samples.svc_append_down Samples.no_json Samples.text_post Samples.bound_world
  = (failure_output (PlainError "Unsupported content type: text/plain"),
     Samples.bound_world).
Proof.
  apply (C7_every_request_answered Samples.svc_append_down Samples.no_json
           Samples.text_post Samples.bound_world).
  left. reflexivity.
Defined.

(** C7 without the amendment fails: the document has no "logs" sheet, the
    sheet and its header row are made, [appendRow] then fails; the answer
    is the failure output and the store is not what it was. *)
Lemma C7_store_changed_on_failure :
  doPost Samples.svc_append_down Samples.no_json Samples.heartbeat_post Samples.bound_world
  = (failure_output
       (ServiceException "Service Spreadsheets failed while accessing document"),
     with_sheet "bound" "logs" [headers] Samples.bound_world)
  /\ sheet_rows "bound" "logs" Samples.bound_world = None
  /\ sheet_rows "bound" "logs" (with_sheet "bound" "logs" [headers] Samples.bound_world)
     = Some [headers].
Proof. repeat split; reflexivity. Qed.

(** C10, as amended. A post in a supported encoding with event, userId and
    ts all present, from whose ts [parseInt] reads no integer at all (the
    text, after white space and a sign, does not start with a digit, or
    the value has no text): the answer is a failure output and the store
    is what it was. When ts has a text that [parseInt] makes NaN of (as
    "abc"), the message is that of the RangeError thrown by
    [toISOString], "Invalid time value". *)
Theorem C10_unreadable_timestamp (svc : service_call -> option string)
    (JSON_parse : string -> jsval + string) (e : Event) (w : World) (params : jsval) :
  parse_params JSON_parse e = Normal params ->
  required_present params = true ->
  (forall n, parseInt (prop params "ts") <> Normal (Some n)) ->
  exists err,
    doPost svc JSON_parse e w = (failure_output err, w)
    /\ (parseInt (prop params "ts") = Normal None ->
        err = RangeError "Invalid time value").
Proof.
  intros Hp Hreq Hts.
  assert (Hn : params <> JNull) by (intros ->; discriminate Hreq).
  assert (Hu : params <> JUndefined) by (intros ->; discriminate Hreq).
  pose proof (validate_spec params Hn Hu) as Hv. rewrite Hreq in Hv.
  assert (Hrow : rowData_of params
                 = match parseInt (prop params "ts") with
                   | Normal None => Throw (RangeError "Invalid time value")
                   | Throw err => Throw err
                   | Normal (Some n) => rowData_of params
                   end).
  { destruct (parseInt (prop params "ts")) as [[n |] | err] eqn:Hparse;
      [reflexivity | |];
      unfold rowData_of; rewrite (Get_prop params "ts" Hn Hu); cbn [bind];
      rewrite Hparse; reflexivity. }
  destruct (parseInt (prop params "ts")) as [[n |] | err] eqn:Hparse.
  - exfalso. exact (Hts n eq_refl).
  - exists (RangeError "Invalid time value"). split; [| reflexivity].
    apply (doPost_row_throw svc JSON_parse e w params); assumption.
  - exists err. split; [| discriminate].
    apply (doPost_row_throw svc JSON_parse e w params); assumption.
Qed.

Lemma C10_unreadable_timestamp_witness :
  exists err,
    doPost Samples.svc_up Samples.no_json Samples.abc_ts_post Samples.bound_world
    = (failure_output err, Samples.bound_world)
    /\ (parseInt (prop (parameter_object Samples.abc_ts_post) "ts") = Normal None ->
        err = RangeError "Invalid time value").
Proof.
  apply (C10_unreadable_timestamp Samples.svc_up Samples.no_json Samples.abc_ts_post
           Samples.bound_world (parameter_object Samples.abc_ts_post));
    [reflexivity | reflexivity | intros n; vm_compute; discriminate].
Defined.

(** C10 without the amendment fails. Neither "12abc" nor "1.7e12" is an
    integer number of milliseconds, yet [parseInt] reads the digits they
    start with, 12 and 1, and each post is answered with the success output
    and a row is stored, stamped 12 ms and 1 ms after the epoch. *)
Lemma C10_leading_digits_accepted :
  (all_digits "12abc" = false
   /\ parseInt_string "12abc" = Some 12
   /\ doPost Samples.svc_up Samples.no_json Samples.trailing_ts_post Samples.bound_world
      = (success_output,
         appended "bound"
           [JStr "1970-01-01T00:00:00.012Z"; JStr "heartbeat"; JStr ""; JStr "u1"; JStr ""]
           Samples.bound_world))
  /\ (all_digits "1.7e12" = false
      /\ parseInt_string "1.7e12" = Some 1
      /\ doPost Samples.svc_up Samples.no_json Samples.exponent_ts_post
           Samples.bound_world
         = (success_output,
            appended "bound"
              [JStr "1970-01-01T00:00:00.001Z"; JStr "heartbeat"; JStr ""; JStr "u1";
               JStr ""]
              Samples.bound_world)).
Proof. repeat split; reflexivity. Qed.

End IngestFacts.

(** ** Facts about the beacon *)
Module BeaconFacts.
Import JS Beacon.

Lemma obj_lookup_replace (k k' : string) (v : jsval) (ps : list (string * jsval)) :
  obj_lookup k (obj_replace k' v ps)
  = if String.eqb k k'
    then match obj_lookup k' ps with Some _ => Some v | None => None end
    else obj_lookup k ps.
Proof.
  induction ps as [| [k0 v0] ps IH]; cbn [obj_replace obj_lookup].
  - destruct (String.eqb k k'); reflexivity.
  - destruct (String.eqb_spec k' k0) as [<- | Hk0]; cbn [obj_lookup].
    + destruct (String.eqb_spec k k') as [-> | Hkk]; reflexivity.
    + rewrite IH. destruct (String.eqb_spec k k') as [-> | Hkk].
      * apply String.eqb_neq in Hk0. rewrite Hk0. reflexivity.
      * reflexivity.
Qed.

Lemma obj_lookup_add (k k' : string) (v : jsval) (ps : list (string * jsval)) :
  obj_lookup k' ps = None ->
  obj_lookup k (obj_add k' v ps)
  = if String.eqb k k' then Some v else obj_lookup k ps.
Proof.
  induction ps as [| [k0 v0] ps IH]; intros Hnone; cbn [obj_add obj_lookup].
  - reflexivity.
  - cbn [obj_lookup] in Hnone.
    destruct (String.eqb_spec k' k0) as [-> | Hk0]; [discriminate |].
    specialize (IH Hnone).
    assert (Hskip : obj_lookup k ((k0, v0) :: obj_add k' v ps)
                    = if String.eqb k k' then Some v
                      else if String.eqb k k0 then Some v0 else obj_lookup k ps).
    { cbn [obj_lookup]. rewrite IH.
      destruct (String.eqb_spec k k0) as [-> | Hkk0]; [| reflexivity].
      apply not_eq_sym in Hk0. apply String.eqb_neq in Hk0. rewrite Hk0. reflexivity. }
    destruct (array_index k') as [i |]; [destruct (array_index k0) as [i0 |] |].
    + destruct (i <? i0); [reflexivity | exact Hskip].
    + reflexivity.
    + exact Hskip.
Qed.

Lemma obj_lookup_set (k k' : string) (v : jsval) (ps : list (string * jsval)) :
  obj_lookup k (obj_set k' v ps) = if String.eqb k k' then Some v else obj_lookup k ps.
Proof.
  unfold obj_set. destruct (obj_lookup k' ps) eqn:Hk'.
  - rewrite obj_lookup_replace, Hk'. reflexivity.
  - apply obj_lookup_add. exact Hk'.
Qed.

Lemma obj_lookup_app (k : string) (l1 l2 : list (string * jsval)) :
  obj_lookup k (l1 ++ l2)%list
  = match obj_lookup k l1 with Some v => Some v | None => obj_lookup k l2 end.
Proof.
  induction l1 as [| [k0 v0] l1 IH]; [reflexivity |].
  cbn [app obj_lookup]. destruct (String.eqb k k0); [reflexivity | exact IH].
Qed.

(** In [{...target, ...source}] a key of the source wins, with the value
    the source gives it last. *)
Lemma obj_lookup_spread (k : string) (source : list (string * jsval)) :
  forall target,
    obj_lookup k (spread target source)
    = match obj_lookup k (rev source) with
      | Some v => Some v
      | None => obj_lookup k target
      end.
Proof.
  unfold spread. induction source as [| [k0 v0] source IH]; intros target.
  - reflexivity.
  - cbn [fold_left fst snd rev]. rewrite IH, obj_lookup_app, obj_lookup_set.
    cbn [obj_lookup]. destruct (obj_lookup k (rev source)); [reflexivity |].
    destruct (String.eqb k k0); reflexivity.
Qed.

Lemma getItem_setItem (k v : string) (p : Page) : getItem k (setItem k v p) = Some v.
Proof. unfold getItem, setItem. cbn. apply lookup_insert_eq. Qed.

(** The identifier handed out is never empty, and it is the one in
    storage afterwards. *)
Lemma getOrCreateUserId_stored (now : Z) (random36 : string) (p : Page) :
  getItem USER_ID (snd (getOrCreateUserId now random36 p))
  = Some (fst (getOrCreateUserId now random36 p))
  /\ fst (getOrCreateUserId now random36 p) <> "".
Proof.
  unfold getOrCreateUserId.
  destruct (getItem USER_ID p) as [s |] eqn:Hget; cbn [truthy negb].
  - destruct (String.eqb_spec s "") as [-> | Hne]; cbn [negb fst snd default from_option id].
    + rewrite getItem_setItem. split; [reflexivity | discriminate].
    + split; [exact Hget | exact Hne].
  - cbn [fst snd]. rewrite getItem_setItem. split; [reflexivity | discriminate].
Qed.

Lemma getOrCreateUserId_kept (now : Z) (random36 s : string) (p : Page) :
  getItem USER_ID p = Some s -> s <> "" -> getOrCreateUserId now random36 p = (s, p).
Proof.
  intros Hget Hne. unfold getOrCreateUserId. rewrite Hget. cbn [truthy].
  apply String.eqb_neq in Hne. rewrite Hne. reflexivity.
Qed.

Lemma getOrCreateUserId_page (now : Z) (random36 : string) (p : Page) :
  pathname (snd (getOrCreateUserId now random36 p)) = pathname p
  /\ userAgent (snd (getOrCreateUserId now random36 p)) = userAgent p
  /\ fetched (snd (getOrCreateUserId now random36 p)) = fetched p
  /\ getItem GAS_URL (snd (getOrCreateUserId now random36 p)) = getItem GAS_URL p.
Proof.
  unfold getOrCreateUserId. destruct (negb (truthy (getItem USER_ID p)));
    cbn [snd]; repeat split; try reflexivity.
  unfold getItem, setItem. cbn. apply lookup_insert_ne. discriminate.
Qed.

(** C8. Two retrievals in a row, whatever the clock and the random source
    say each time and whatever the page held before: the second returns
    what the first returned and leaves the page as the first left it; the
    identifier returned is not empty and is the one in storage. If storage
    already held a non-empty identifier, the first retrieval returns that
    one and changes nothing. *)
Theorem C8_identifier_stable (now1 now2 : Z) (random1 random2 : string) (p : Page) :
  getOrCreateUserId now2 random2 (snd (getOrCreateUserId now1 random1 p))
  = (fst (getOrCreateUserId now1 random1 p), snd (getOrCreateUserId now1 random1 p))
  /\ getItem USER_ID (snd (getOrCreateUserId now1 random1 p))
     = Some (fst (getOrCreateUserId now1 random1 p))
  /\ fst (getOrCreateUserId now1 random1 p) <> ""
  /\ (forall s, getItem USER_ID p = Some s -> s <> "" ->
                getOrCreateUserId now1 random1 p = (s, p)).
Proof.
  destruct (getOrCreateUserId_stored now1 random1 p) as [Hstored Hne].
  split; [| split; [exact Hstored | split; [exact Hne |]]].
  - apply getOrCreateUserId_kept; assumption.
  - intros s. apply getOrCreateUserId_kept.
Qed.

Lemma meta_string_after_id (payload : Payload) (now : Z) (random36 : string) (p : Page) :
  meta_string payload (snd (getOrCreateUserId now random36 p)) = meta_string payload p.
Proof.
  destruct (getOrCreateUserId_page now random36 p) as (Hpath & Hua & _).
  unfold meta_string, meta_object. rewrite Hpath, Hua. reflexivity.
Qed.

(** The entry for the variant: there when a variant was given and is not
    the empty string. *)
Lemma build_params_body (payload : Payload) (id_now : Z) (random36 : string) (ts_now : Z)
    (p : Page) :
  build_params payload id_now random36 ts_now p
  = ([("event", event payload)]
       ++ match variant payload with
          | Some v => if String.eqb v "" then [] else [("variant", v)]
          | None => []
          end
       ++ [("userId", fst (getOrCreateUserId id_now random36 p));
           ("ts", Z_toString 10 ts_now);
           ("meta", meta_string payload p)],
     snd (getOrCreateUserId id_now random36 p))%list.
Proof.
  unfold build_params.
  rewrite <- (meta_string_after_id payload id_now random36 p).
  destruct (getOrCreateUserId id_now random36 p) as [userId p1]. cbn [fst snd].
  destruct (variant payload) as [v |]; cbn [truthy default from_option id].
  - destruct (String.eqb v ""); reflexivity.
  - reflexivity.
Qed.

Lemma fetched_updateStatus (message : string) (isError : bool) (p : Page) :
  fetched (updateStatus message isError p) = fetched p.
Proof. reflexivity. Qed.

(** With an endpoint saved that ends in /exec, exactly one request goes
    out, to that endpoint, whatever comes back. *)
Lemma sendLogSimple_fetched (payload : Payload) (id_now : Z) (random36 : string)
    (ts_now : Z) (outcome : FetchOutcome) (p : Page) (gasUrl : string) :
  getItem GAS_URL p = Some gasUrl ->
  gasUrl <> "" ->
  endsWith gasUrl "/exec" = true ->
  fetched (sendLogSimple payload id_now random36 ts_now outcome p)
  = (fetched p
       ++ [mkRequest gasUrl "POST" (fst (build_params payload id_now random36 ts_now p))])%list.
Proof.
  intros Hget Hne Hexec. unfold sendLogSimple. rewrite Hget. cbn [truthy default from_option id].
  apply String.eqb_neq in Hne. rewrite Hne, Hexec. cbn [negb].
  rewrite build_params_body. cbn [fst].
  destruct (getOrCreateUserId_page id_now random36 p) as (_ & _ & Hfetched & _).
  destruct (handle_response outcome) as [[message isError] | error];
    rewrite fetched_updateStatus; cbn [fetch fetched]; rewrite Hfetched; reflexivity.
Qed.

(** What goes out, and what is in it. *)
Lemma request_body_facts (payload : Payload) (id_now : Z) (random36 : string)
    (ts_now : Z) (outcome : FetchOutcome) (p : Page) (gasUrl : string) :
  getItem GAS_URL p = Some gasUrl ->
  gasUrl <> "" ->
  endsWith gasUrl "/exec" = true ->
  fetched (sendLogSimple payload id_now random36 ts_now outcome p)
  = (fetched p
       ++ [mkRequest gasUrl "POST"
             ([("event", event payload)]
                ++ match variant payload with
                   | Some v => if String.eqb v "" then [] else [("variant", v)]
                   | None => []
                   end
                ++ [("userId", fst (getOrCreateUserId id_now random36 p));
                    ("ts", Z_toString 10 ts_now);
                    ("meta", meta_string payload p)])])%list
  /\ fst (getOrCreateUserId id_now random36 p) <> ""
  /\ parseInt_string (Z_toString 10 ts_now) = Some ts_now
  /\ JSON_stringify (JObj (meta_object payload p)) = Some (meta_string payload p).
Proof.
  intros Hget Hne Hexec.
  split; [| split; [| split]].
  - rewrite (sendLogSimple_fetched payload id_now random36 ts_now outcome p gasUrl)
      by assumption.
    rewrite build_params_body. reflexivity.
  - apply getOrCreateUserId_stored.
  - apply JSFacts.parseInt_string_Z_toString.
  - reflexivity.
Qed.

(** C3. With an endpoint saved that ends in /exec, the one request
    handed to [fetch] is a POST to that endpoint whose URLSearchParams body
    holds, in this order: event, the event kind given; variant, only when
    a non-empty variant was given, with that value; userId, the non-empty
    identifier of [getOrCreateUserId]; ts, the decimal text of the current
    time in milliseconds, which reads back as that integer; meta, the JSON
    text of the object that has every property of the caller's metadata
    and, for page and ua when the caller does not give them, the path of
    the page and the user agent. *)
Theorem C3_request_body (payload : Payload) (id_now : Z) (random36 : string)
    (ts_now : Z) (outcome : FetchOutcome) (p : Page) (gasUrl : string) :
  getItem GAS_URL p = Some gasUrl ->
  gasUrl <> "" ->
  endsWith gasUrl "/exec" = true ->
  fetched (sendLogSimple payload id_now random36 ts_now outcome p)
  = (fetched p
       ++ [mkRequest gasUrl "POST"
             ([("event", event payload)]
                ++ match variant payload with
                   | Some v => if String.eqb v "" then [] else [("variant", v)]
                   | None => []
                   end
                ++ [("userId", fst (getOrCreateUserId id_now random36 p));
                    ("ts", Z_toString 10 ts_now);
                    ("meta", meta_string payload p)])])%list
  /\ fst (getOrCreateUserId id_now random36 p) <> ""
  /\ parseInt_string (Z_toString 10 ts_now) = Some ts_now
  /\ JSON_stringify (JObj (meta_object payload p)) = Some (meta_string payload p)
  /\ (forall k,
         obj_lookup k (meta_object payload p)
         = match obj_lookup k (rev (default [] (meta payload))) with
           | Some v => Some v
           | None => obj_lookup k [("page", JStr (pathname p)); ("ua", JStr (userAgent p))]
           end).
Proof.
  intros Hget Hne Hexec.
  destruct (request_body_facts payload id_now random36 ts_now outcome p gasUrl
              Hget Hne Hexec) as (Hsent & Huid & Hts & Hjson).
  repeat split; try assumption.
  intros k. unfold meta_object. apply obj_lookup_spread.
Qed.

Lemma C3_request_body_witness :
  fetched (sendLogSimple Samples.cta_A 1700000000000 "0.4fzyo82mvyr" 1700000000000
             Samples.ok_response Samples.configured_page)
  = [mkRequest "https://example.google.com/exec" "POST"
       [("event", "cta_click"); ("variant", "A"); ("userId", "usr_loyw3v28_4fzyo82mv");
        ("ts", "1700000000000");
        ("meta", meta_string Samples.cta_A Samples.configured_page)]].
Proof.
  apply (C3_request_body Samples.cta_A 1700000000000 "0.4fzyo82mvyr" 1700000000000
           Samples.ok_response Samples.configured_page "https://example.google.com/exec");
    [reflexivity | discriminate | reflexivity].
Defined.

(** C4. With no endpoint saved, with the empty string saved, or with an
    endpoint that does not end in /exec, [sendLogSimple] only shows an
    error: the status element gets one of the two configuration messages
    with the error class, nothing is handed to [fetch], and local storage
    is what it was. *)
Theorem C4_no_request_without_endpoint (payload : Payload) (id_now : Z)
    (random36 : string) (ts_now : Z) (outcome : FetchOutcome) (p : Page) :
  (forall gasUrl, getItem GAS_URL p = Some gasUrl ->
                  gasUrl = "" \/ endsWith gasUrl "/exec" = false) ->
  exists message,
    sendLogSimple payload id_now random36 ts_now outcome p = updateStatus message true p
    /\ (message = "Missing Web App URL. Please save a valid URL first."
        \/ message = "URL must end with /exec")
    /\ fetched (sendLogSimple payload id_now random36 ts_now outcome p) = fetched p
    /\ localStorage (sendLogSimple payload id_now random36 ts_now outcome p)
       = localStorage p
    /\ status_className (sendLogSimple payload id_now random36 ts_now outcome p) = "error".
Proof.
  intros Hbad. unfold sendLogSimple.
  destruct (getItem GAS_URL p) as [gasUrl |] eqn:Hget; cbn [truthy negb].
  - destruct (String.eqb_spec gasUrl "") as [-> | Hne]; cbn [negb].
    + eexists. split; [reflexivity |]. repeat split; auto.
    + destruct (Hbad gasUrl eq_refl) as [-> | Hexec]; [contradiction |].
      cbn [default from_option id]. rewrite Hexec. cbn [negb].
      eexists. split; [reflexivity |]. repeat split; auto.
  - eexists. split; [reflexivity |]. repeat split; auto.
Qed.

Lemma C4_no_request_without_endpoint_witness :
  exists message,
    sendLogSimple Samples.cta_A 1700000000000 "0.4fzyo82mvyr" 1700000000000
      Samples.ok_response Samples.fresh_page
    = updateStatus message true Samples.fresh_page
    /\ (message = "Missing Web App URL. Please save a valid URL first."
        \/ message = "URL must end with /exec")
    /\ fetched (sendLogSimple Samples.cta_A 1700000000000 "0.4fzyo82mvyr" 1700000000000
                  Samples.ok_response Samples.fresh_page)
       = fetched Samples.fresh_page
    /\ localStorage (sendLogSimple Samples.cta_A 1700000000000 "0.4fzyo82mvyr"
                       1700000000000 Samples.ok_response Samples.fresh_page)
       = localStorage Samples.fresh_page
    /\ status_className (sendLogSimple Samples.cta_A 1700000000000 "0.4fzyo82mvyr"
                           1700000000000 Samples.ok_response Samples.fresh_page)
       = "error".
Proof.
  apply (C4_no_request_without_endpoint Samples.cta_A 1700000000000 "0.4fzyo82mvyr"
           1700000000000 Samples.ok_response Samples.fresh_page).
  intros gasUrl Hget. vm_compute in Hget. discriminate Hget.
Defined.

(** C9. The click on the save button, on the trimmed text of the input.
    Empty: the error "Please enter a URL" is shown and nothing is stored.
    Not empty: the text is stored under gas_url and the status ends as
    "URL saved" with the success class, whether or not the text starts
    with https:// and contains google.com; when it does not, the warning
    is written to the status element first, with the error class, and the
    saving goes on. *)
Theorem C9_save_url (p : Page) :
  (trim (gasUrlInput_value p) = "" ->
   saveUrl_click p = updateStatus "Please enter a URL" true p
   /\ localStorage (saveUrl_click p) = localStorage p)
  /\ (trim (gasUrlInput_value p) <> "" ->
      localStorage (saveUrl_click p)
      = <[GAS_URL := trim (gasUrlInput_value p)]> (localStorage p)
      /\ status_textContent (saveUrl_click p) = "URL saved"
      /\ status_className (saveUrl_click p) = "success"
      /\ shown (saveUrl_click p)
         = (shown p
              ++ (if startsWith (trim (gasUrlInput_value p)) "https://"
                     && includes (trim (gasUrlInput_value p)) "google.com"
                  then []
                  else [("Warning: URL may not be valid", "error")])
              ++ [("URL saved", "success")])%list).
Proof.
  unfold saveUrl_click. split.
  - intros ->. split; reflexivity.
  - intros Hne. apply String.eqb_neq in Hne. rewrite Hne.
    destruct (startsWith (trim (gasUrlInput_value p)) "https://");
      destruct (includes (trim (gasUrlInput_value p)) "google.com");
      cbn [negb orb andb]; repeat split; try reflexivity.
    all: cbn [updateStatus setItem shown]; rewrite <- app_assoc; reflexivity.
Qed.

Lemma C9_save_url_witness :
  localStorage (saveUrl_click
                  (mkPage ∅ "  http://example.com/exec " "" "" [] [] [] "/" "Mozilla/5.0"))
  = {[ GAS_URL := "http://example.com/exec" ]}
  /\ shown (saveUrl_click
              (mkPage ∅ "  http://example.com/exec " "" "" [] [] [] "/" "Mozilla/5.0"))
     = [("Warning: URL may not be valid", "error"); ("URL saved", "success")].
Proof.
  destruct (C9_save_url (mkPage ∅ "  http://example.com/exec " "" "" [] [] [] "/"
                           "Mozilla/5.0")) as [_ Hsaved].
  destruct Hsaved as (Hstore & _ & _ & Hshown); [vm_compute; discriminate |].
  split; [rewrite Hstore | rewrite Hshown]; reflexivity.
Defined.

Lemma C8_identifier_stable_witness :
  getOrCreateUserId 1700000000999 "0.zzzzzzzzzzz"
    (snd (getOrCreateUserId 1700000000000 "0.4fzyo82mvyr" Samples.fresh_page))
  = ("usr_loyw3v28_4fzyo82mv",
     snd (getOrCreateUserId 1700000000000 "0.4fzyo82mvyr" Samples.fresh_page)).
Proof.
  destruct (C8_identifier_stable 1700000000000 1700000000999 "0.4fzyo82mvyr"
              "0.zzzzzzzzzzz" Samples.fresh_page) as [Hagain _].
  rewrite Hagain. reflexivity.
Defined.

End BeaconFacts.

(** ** From the click to the row *)
Module EndToEnd.
Import JS.

Lemma assoc_filter_other (k k' : string) (fields : list (string * string)) :
  k <> k' ->
  Ingest.assoc k (List.filter (fun kv => negb (String.eqb (fst kv) k')) fields)
  = Ingest.assoc k fields.
Proof.
  intros Hne. induction fields as [| [k0 v0] fields IH]; [reflexivity |].
  cbn [List.filter fst Ingest.assoc].
  destruct (String.eqb_spec k0 k') as [-> | Hk0]; cbn [negb Ingest.assoc].
  - apply String.eqb_neq in Hne. rewrite Hne. exact IH.
  - rewrite IH. reflexivity.
Qed.

(** Decoding keeps, for every name, the value the body gives it first. *)
Lemma assoc_first_values (k : string) (entries : list (string * string)) :
  Ingest.assoc k (Wire.first_values entries) = Ingest.assoc k entries.
Proof.
  induction entries as [| [k0 v0] entries IH]; [reflexivity |].
  cbn [Wire.first_values Ingest.assoc].
  destruct (String.eqb_spec k k0) as [-> | Hne]; [reflexivity |].
  rewrite assoc_filter_other by exact Hne. exact IH.
Qed.

(** The fields of the body the beacon builds. *)
Lemma body_fields (ev uid ts m : string) (variant : option string) :
  let body := ([("event", ev)]
                 ++ match variant with
                    | Some v => if String.eqb v "" then [] else [("variant", v)]
                    | None => []
                    end
                 ++ [("userId", uid); ("ts", ts); ("meta", m)])%list in
  Ingest.assoc "event" body = Some ev
  /\ Ingest.assoc "userId" body = Some uid
  /\ Ingest.assoc "ts" body = Some ts
  /\ Ingest.assoc "meta" body = Some m
  /\ default "" (Ingest.assoc "variant" body) = default "" variant.
Proof.
  destruct variant as [v |]; [destruct (String.eqb_spec v "") as [-> | Hv] |];
    repeat split; reflexivity.
Qed.

(** C5. The beacon, with an endpoint saved that ends in /exec, sends one
    request whose meta field is the JSON text it serialized the merged
    metadata into. Whenever the endpoint makes a row for that request, the
    meta cell of the row is that very text; and when the event kind is not
    empty, the time is in the range of dates, the service answers and the
    target document exists, the row is appended with that text in its
    meta column and the answer is the success output. *)
Theorem C5_meta_round_trip (payload : Beacon.Payload) (id_now : Z) (random36 : string)
    (ts_now : Z) (outcome : Beacon.FetchOutcome) (p : Beacon.Page) (gasUrl : string)
    (svc : Ingest.service_call -> option string) (JSON_parse : string -> jsval + string)
    (w : Ingest.World) (doc : string) :
  Beacon.getItem Beacon.GAS_URL p = Some gasUrl ->
  gasUrl <> "" ->
  endsWith gasUrl "/exec" = true ->
  exists r,
    Beacon.fetched (Beacon.sendLogSimple payload id_now random36 ts_now outcome p)
    = (Beacon.fetched p ++ [r])%list
    /\ JSON_stringify (JObj (Beacon.meta_object payload p))
       = Some (Beacon.meta_string payload p)
    /\ Ingest.assoc "meta" (Beacon.body r) = Some (Beacon.meta_string payload p)
    /\ (forall rowData,
           Ingest.rowData_of (Ingest.parameter_object (Wire.deliver r)) = Normal rowData ->
           rowData !! 4%nat = Some (JStr (Beacon.meta_string payload p)))
    /\ (Beacon.event payload <> "" ->
        Z.abs ts_now <= 8640000000000000 ->
        (forall c, svc c = None) ->
        Ingest.target_spreadsheet w = Some doc ->
        Ingest.doPost svc JSON_parse (Wire.deliver r) w
        = (Ingest.success_output,
           Ingest.appended doc
             [JStr (iso_text ts_now); JStr (Beacon.event payload);
              JStr (default "" (Beacon.variant payload));
              JStr (fst (Beacon.getOrCreateUserId id_now random36 p));
              JStr (Beacon.meta_string payload p)] w)).
Proof.
  intros Hget Hne Hexec.
  destruct (BeaconFacts.request_body_facts payload id_now random36 ts_now outcome p
              gasUrl Hget Hne Hexec) as (Hsent & Huid & Hts & Hjson).
  eexists. split; [exact Hsent |]. split; [exact Hjson |].
  destruct (body_fields (Beacon.event payload)
              (fst (Beacon.getOrCreateUserId id_now random36 p))
              (Z_toString 10 ts_now) (Beacon.meta_string payload p)
              (Beacon.variant payload)) as (Fe & Fu & Ft & Fm & Fv).
  split; [exact Fm |]. split.
  - intros rowData. unfold Ingest.rowData_of. rewrite !IngestFacts.Get_parameter.
    cbn [Wire.deliver Ingest.parameter Beacon.body]. rewrite !assoc_first_values.
    rewrite Fe, Fu, Ft, Fm. cbn [bind parseInt ToString].
    destruct (toISOString (Date_new (parseInt_string (Z_toString 10 ts_now))));
      cbn [bind]; [| discriminate].
    intros H.
    rewrite (IngestFacts.or_else_field (Some (Beacon.meta_string payload p))) in H.
    injection H as <-. reflexivity.
  - intros Hev Hrange Hsvc Htarget.
    match goal with
    | |- Ingest.doPost _ _ (Wire.deliver ?r) _ = _ =>
        rewrite (IngestFacts.doPost_form_row svc JSON_parse (Wire.deliver r) w doc
                   (Wire.serialize (Beacon.body r)) (Beacon.event payload)
                   (fst (Beacon.getOrCreateUserId id_now random36 p))
                   (Z_toString 10 ts_now) ts_now)
    end;
      try assumption; try reflexivity;
      cbn [Wire.deliver Ingest.parameter Beacon.body]; rewrite ?assoc_first_values;
      try assumption.
    rewrite Fv, Fm. reflexivity.
Qed.

Lemma C5_meta_round_trip_witness :
  exists r,
    Beacon.fetched (Beacon.sendLogSimple Samples.cta_A 1700000000000 "0.4fzyo82mvyr"
                      1700000000000 Samples.ok_response Samples.configured_page)
    = [r]
    /\ Ingest.doPost Samples.svc_up Samples.no_json (Wire.deliver r) Samples.bound_world
       = (Ingest.success_output,
          Ingest.appended "bound"
            [JStr "2023-11-14T22:13:20.000Z"; JStr "cta_click"; JStr "A";
             JStr "usr_loyw3v28_4fzyo82mv";
             JStr (Beacon.meta_string Samples.cta_A Samples.configured_page)]
            Samples.bound_world).
Proof.
  destruct (C5_meta_round_trip Samples.cta_A 1700000000000 "0.4fzyo82mvyr" 1700000000000
              Samples.ok_response Samples.configured_page
              "https://example.google.com/exec" Samples.svc_up Samples.no_json
              Samples.bound_world "bound")
    as (r & Hsent & _ & _ & _ & Hrow);
    [reflexivity | discriminate | reflexivity |].
  exists r. split; [exact Hsent |].
  rewrite Hrow; [reflexivity | discriminate | vm_compute; discriminate
                | intros c; reflexivity | reflexivity].
Defined.

(** The metadata text of a click on a page at "/", and of a submission
    whose caller overrides ua and adds a property. *)
Example meta_string_plain :
  Beacon.meta_string Samples.cta_A Samples.configured_page
  = "{" +:+ dquote +:+ "page" +:+ dquote +:+ ":" +:+ dquote +:+ "/" +:+ dquote +:+ ","
    +:+ dquote +:+ "ua" +:+ dquote +:+ ":" +:+ dquote +:+ "Mozilla/5.0" +:+ dquote +:+ "}".
Proof. reflexivity. Qed.

Example meta_string_caller_wins :
  Beacon.meta_string
    (Beacon.mkPayload "cta_click" None (Some [("ua", JStr "x"); ("k", JNum "1")]))
    Samples.configured_page
  = "{" +:+ dquote +:+ "page" +:+ dquote +:+ ":" +:+ dquote +:+ "/" +:+ dquote +:+ ","
    +:+ dquote +:+ "ua" +:+ dquote +:+ ":" +:+ dquote +:+ "x" +:+ dquote +:+ ","
    +:+ dquote +:+ "k" +:+ dquote +:+ ":1}".
Proof. reflexivity. Qed.

End EndToEnd.


(** ** More about the ingest endpoint *)
Module IngestCoverage.
Import JS Ingest IngestFacts.

Lemma sheet_rows_appended (doc : string) (rowData : Row) (w : World) :
  sheet_rows doc "logs" (appended doc rowData w)
  = Some (default [headers] (sheet_rows doc "logs" w) ++ [rowData])%list.
Proof. unfold appended. apply sheet_rows_with_sheet. Qed.

(** Writing a sheet of a document that is there changes no choice of
    document. *)
Lemma target_with_sheet (doc name : string) (rows : list Row) (w : World) :
  is_Some (documents w !! doc) ->
  target_spreadsheet (with_sheet doc name rows w) = target_spreadsheet w.
Proof.
  intros [ss Hdoc]. unfold target_spreadsheet, with_sheet. cbn.
  destruct (if ToBoolean _ then _ else _) as [i |]; [| reflexivity]. cbn.
  destruct (decide (doc = i)) as [<- | Hne].
  - rewrite lookup_insert_eq, Hdoc. reflexivity.
  - rewrite lookup_insert_ne by exact Hne. reflexivity.
Qed.

Lemma target_is_document (w : World) (doc : string) :
  target_spreadsheet w = Some doc -> is_Some (documents w !! doc).
Proof.
  intros H. destruct (target_spreadsheet_inv w doc H) as [[ss Hss] _]. eauto.
Qed.

(** X1. Every form post whose event and userId are not empty and whose ts
    reads, by [parseInt], as an integer within 8.64e15 milliseconds of the
    epoch, handled while the service answers and the target document
    exists: the answer is the success output, and the log sheet afterwards
    is what it was (or the header row, if it had to be made) followed by
    the row [ISO time; event; variant or ""; userId; meta or ""], the last
    four exactly as received. *)
Theorem X1_form_post_row (svc : service_call -> option string)
    (JSON_parse : string -> jsval + string) (e : Event) (w : World)
    (doc raw ev uid t : string) (n : Z) :
  (forall c, svc c = None) ->
  target_spreadsheet w = Some doc ->
  postData e = Some (mkPostData form_type raw) ->
  assoc "event" (parameter e) = Some ev -> ev <> "" ->
  assoc "userId" (parameter e) = Some uid -> uid <> "" ->
  assoc "ts" (parameter e) = Some t ->
  parseInt_string t = Some n ->
  Z.abs n <= 8640000000000000 ->
  fst (doPost svc JSON_parse e w) = success_output
  /\ sheet_rows doc "logs" (snd (doPost svc JSON_parse e w))
     = Some (default [headers] (sheet_rows doc "logs" w)
               ++ [[JStr (iso_text n); JStr ev;
                    JStr (default "" (assoc "variant" (parameter e))); JStr uid;
                    JStr (default "" (assoc "meta" (parameter e)))]])%list.
Proof.
  intros Hsvc Htgt Hpd He Hev Hu Huid Ht Hn Hle.
  rewrite (doPost_form_row svc JSON_parse e w doc raw ev uid t n) by assumption.
  cbn [fst snd]. split; [reflexivity | apply sheet_rows_appended].
Qed.

Lemma X1_form_post_row_witness :
  sheet_rows "bound" "logs"
    (snd (doPost Samples.svc_up Samples.no_json Samples.click_post Samples.bound_world))
  = Some [headers;
          [JStr "2023-11-14T22:13:20.001Z"; JStr "cta_click"; JStr "B"; JStr "u2";
           JStr "{}"]].
Proof.
  destruct (X1_form_post_row Samples.svc_up Samples.no_json Samples.click_post
              Samples.bound_world "bound"
              (Wire.serialize (parameter Samples.click_post))
              "cta_click" "u2" "1700000000001" 1700000000001
              (fun _ => eq_refl) eq_refl eq_refl eq_refl ltac:(discriminate)
              eq_refl ltac:(discriminate) eq_refl eq_refl
              ltac:(vm_compute; discriminate)) as [_ Hrows].
  rewrite Hrows. reflexivity.
Defined.

(** X2. A post in a supported encoding with event, userId and ts all
    truthy, whose ts reads as an integer more than 8.64e15 milliseconds
    from the epoch: there is no such date, [toISOString] throws, and the
    answer is the failure output "Invalid time value" with the store as it
    was. *)
Theorem X2_timestamp_out_of_range (svc : service_call -> option string)
    (JSON_parse : string -> jsval + string) (e : Event) (w : World) (params : jsval)
    (n : Z) :
  parse_params JSON_parse e = Normal params ->
  required_present params = true ->
  parseInt (prop params "ts") = Normal (Some n) ->
  8640000000000000 < Z.abs n ->
  doPost svc JSON_parse e w = (failure_output (RangeError "Invalid time value"), w).
Proof.
  intros Hp Hreq Hts Hbig.
  assert (Hn : params <> JNull) by (intros ->; discriminate Hreq).
  assert (Hu : params <> JUndefined) by (intros ->; discriminate Hreq).
  pose proof (validate_spec params Hn Hu) as Hv. rewrite Hreq in Hv.
  apply (doPost_row_throw svc JSON_parse e w params); [assumption | assumption |].
  unfold rowData_of. rewrite (Get_prop params "ts" Hn Hu). cbn [bind].
  rewrite Hts. cbn [bind Date_new].
  replace (Z.abs n <=? 8640000000000000) with false by (symmetry; apply Z.leb_gt; lia).
  reflexivity.
Qed.

Lemma X2_timestamp_out_of_range_witness :
  doPost Samples.svc_up Samples.no_json Samples.late_post Samples.bound_world
  = (failure_output (RangeError "Invalid time value"), Samples.bound_world).
Proof.
  apply (X2_timestamp_out_of_range Samples.svc_up Samples.no_json Samples.late_post
           Samples.bound_world (parameter_object Samples.late_post) 8640000000000001);
    [reflexivity | reflexivity | reflexivity | vm_compute; reflexivity].
Defined.

(** [doPost] sees of a request only what [parse_params] makes of it. *)
Lemma doPost_by_params (svc : service_call -> option string)
    (JSON_parse : string -> jsval + string) (e1 e2 : Event) (w : World) :
  parse_params JSON_parse e1 = parse_params JSON_parse e2 ->
  doPost svc JSON_parse e1 w = doPost svc JSON_parse e2 w.
Proof.
  intros H. unfold doPost, doPost_try. cbv beta iota zeta delta [bindM lift].
  rewrite H. reflexivity.
Qed.

(** X3. The two encodings agree: a JSON post whose body parses to an
    object with the same string fields as a form post is answered like the
    form post and leaves the same store, whatever the service does. *)
Theorem X3_encodings_agree (svc : service_call -> option string)
    (JSON_parse : string -> jsval + string) (e_json e_form : Event) (w : World)
    (body raw : string) :
  postData e_json = Some (mkPostData json_type body) ->
  JSON_parse body = inl (parameter_object e_form) ->
  postData e_form = Some (mkPostData form_type raw) ->
  doPost svc JSON_parse e_json w = doPost svc JSON_parse e_form w.
Proof.
  intros Hj Hparse Hf. apply doPost_by_params. unfold parse_params.
  rewrite Hj, Hf. cbn [type contents]. rewrite Hparse. reflexivity.
Qed.

Lemma X3_encodings_agree_witness :
  doPost Samples.svc_up Samples.reads_heartbeat Samples.heartbeat_json_post
    Samples.bound_world
  = doPost Samples.svc_up Samples.reads_heartbeat Samples.heartbeat_post
      Samples.bound_world.
Proof.
  apply (X3_encodings_agree Samples.svc_up Samples.reads_heartbeat
           Samples.heartbeat_json_post Samples.heartbeat_post Samples.bound_world
           Samples.heartbeat_text (Wire.serialize (parameter Samples.heartbeat_post)));
    reflexivity.
Defined.

(** X4. A JSON post whose body is not an object. A body the parser
    refuses is answered with the parser's message; the body null with the
    message of the TypeError thrown on reading its event property; a
    body that is a boolean, a number, a string or an array has none of the
    required properties and is answered "Missing required parameters". In
    each case the store is what it was. *)
Theorem X4_json_body_not_an_object (svc : service_call -> option string)
    (JSON_parse : string -> jsval + string) (e : Event) (w : World) (body : string) :
  postData e = Some (mkPostData json_type body) ->
  (forall msg, JSON_parse body = inr msg ->
               doPost svc JSON_parse e w = (failure_output (SyntaxError msg), w))
  /\ (JSON_parse body = inl JNull ->
      exists msg, doPost svc JSON_parse e w = (failure_output (TypeError msg), w))
  /\ (forall v, JSON_parse body = inl v ->
                match v with
                | JBool _ | JNum _ | JStr _ | JArr _ => True
                | _ => False
                end ->
                doPost svc JSON_parse e w = (failure_output missing_parameters, w)).
Proof.
  intros Hpd.
  assert (Hparse : parse_params JSON_parse e
                   = match JSON_parse body with
                     | inl v => Normal v
                     | inr msg => Throw (SyntaxError msg)
                     end).
  { unfold parse_params. rewrite Hpd. reflexivity. }
  split; [| split].
  - intros msg Hmsg. rewrite Hmsg in Hparse. apply doPost_parse_throw. exact Hparse.
  - intros Hnull. rewrite Hnull in Hparse. eexists.
    apply (doPost_validate_throw svc JSON_parse e w JNull); [exact Hparse | reflexivity].
  - intros v Hv Hkind. rewrite Hv in Hparse.
    apply (doPost_validate_throw svc JSON_parse e w v); [exact Hparse |].
    destruct v; try contradiction; reflexivity.
Qed.

Lemma X4_json_body_not_an_object_witness :
  doPost Samples.svc_up Samples.reads_array Samples.array_post Samples.bound_world
  = (failure_output missing_parameters, Samples.bound_world).
Proof.
  destruct (X4_json_body_not_an_object Samples.svc_up Samples.reads_array
              Samples.array_post Samples.bound_world "[]" eq_refl) as (_ & _ & Hother).
  apply (Hother (JArr [JStr "heartbeat"; JStr "u1"; JStr "1700000000000"]) eq_refl).
  exact I.
Defined.

(** X5. Which document the log goes to, with the service answering. A
    non-empty SPREADSHEET_ID property names it, whether or not the script
    is bound to a document; if no document has that id the call throws and
    nothing is made, the bound document is no fallback. With the property
    unset or empty the bound document is used, and a script bound to none
    throws. *)
Theorem X5_store_selection (svc : service_call -> option string) (w : World) :
  (forall c, svc c = None) ->
  (forall s,
      script_properties w !! "SPREADSHEET_ID" = Some s -> s <> "" ->
      (is_Some (documents w !! s) -> fst (getOrCreateLogSheet svc w) = Normal (s, "logs"))
      /\ (documents w !! s = None ->
          exists msg, getOrCreateLogSheet svc w = (Throw (ServiceException msg), w)))
  /\ (script_properties w !! "SPREADSHEET_ID" = None
      \/ script_properties w !! "SPREADSHEET_ID" = Some "" ->
      (forall a, active w = Some a -> is_Some (documents w !! a) ->
                 fst (getOrCreateLogSheet svc w) = Normal (a, "logs"))
      /\ (active w = None ->
          exists msg, getOrCreateLogSheet svc w = (Throw (TypeError msg), w))).
Proof.
  intros Hsvc. split.
  - intros s Hprop Hs. apply String.eqb_neq in Hs. split.
    + intros [ss Hdoc].
      rewrite (getOrCreateLogSheet_ready svc w s Hsvc); [reflexivity |].
      unfold target_spreadsheet. rewrite Hprop. cbn [ToBoolean]. rewrite Hs. cbn.
      rewrite Hdoc. reflexivity.
    + intros Hdoc. unfold getOrCreateLogSheet. step Hsvc.
      rewrite Hprop. cbn [ToBoolean default from_option id]. rewrite Hs. cbn [negb].
      rewrite Hdoc. eexists. reflexivity.
  - intros Hprop.
    assert (Hfalsy : ToBoolean (match script_properties w !! "SPREADSHEET_ID" with
                                | Some s => JStr s
                                | None => JNull
                                end) = false)
      by (destruct Hprop as [-> | ->]; reflexivity).
    split.
    + intros a Ha [ss Hdoc].
      rewrite (getOrCreateLogSheet_ready svc w a Hsvc); [reflexivity |].
      unfold target_spreadsheet. rewrite Hfalsy, Ha. cbn. rewrite Hdoc. reflexivity.
    + intros Ha. unfold getOrCreateLogSheet. step Hsvc.
      rewrite Hfalsy, Ha. eexists. reflexivity.
Qed.

Lemma X5_store_selection_witness :
  fst (getOrCreateLogSheet Samples.svc_up Samples.configured_world)
  = Normal ("chosen", "logs")
  /\ exists msg,
      getOrCreateLogSheet Samples.svc_up Samples.dangling_world
      = (Throw (ServiceException msg), Samples.dangling_world).
Proof.
  destruct (X5_store_selection Samples.svc_up Samples.configured_world
              (fun _ => eq_refl)) as [Hchosen _].
  destruct (X5_store_selection Samples.svc_up Samples.dangling_world
              (fun _ => eq_refl)) as [Hgone _].
  split.
  - apply (Hchosen "chosen" eq_refl ltac:(discriminate)). vm_compute. eauto.
  - apply (Hgone "chosen" eq_refl ltac:(discriminate)). reflexivity.
Defined.

(** X6. The log sheet is made once. With the service answering and the
    target document there, [getOrCreateLogSheet] hands back the "logs"
    sheet of that document, which afterwards holds the rows it held, or
    the header row alone if it had to be made; a sheet that was there is
    not touched, and calling again changes nothing more. *)
Theorem X6_log_sheet_made_once (svc : service_call -> option string) (w : World)
    (doc : string) :
  (forall c, svc c = None) ->
  target_spreadsheet w = Some doc ->
  fst (getOrCreateLogSheet svc w) = Normal (doc, "logs")
  /\ sheet_rows doc "logs" (snd (getOrCreateLogSheet svc w))
     = Some (default [headers] (sheet_rows doc "logs" w))
  /\ (is_Some (sheet_rows doc "logs" w) -> snd (getOrCreateLogSheet svc w) = w)
  /\ getOrCreateLogSheet svc (snd (getOrCreateLogSheet svc w))
     = (Normal (doc, "logs"), snd (getOrCreateLogSheet svc w)).
Proof.
  intros Hsvc Htgt. rewrite (getOrCreateLogSheet_ready svc w doc Hsvc Htgt). cbn [fst snd].
  destruct (sheet_rows doc "logs" w) as [rows |] eqn:Hrows; cbn [default from_option id].
  - repeat split; try assumption.
    rewrite (getOrCreateLogSheet_ready svc w doc Hsvc Htgt), Hrows. reflexivity.
  - split; [reflexivity |]. split; [apply sheet_rows_with_sheet |].
    split; [intros [x Hx]; discriminate Hx |].
    rewrite (getOrCreateLogSheet_ready svc _ doc Hsvc).
    + rewrite sheet_rows_with_sheet. reflexivity.
    + rewrite target_with_sheet; [exact Htgt | exact (target_is_document w doc Htgt)].
Qed.

Lemma X6_log_sheet_made_once_witness :
  sheet_rows "bound" "logs" (snd (getOrCreateLogSheet Samples.svc_up Samples.bound_world))
  = Some [headers].
Proof.
  destruct (X6_log_sheet_made_once Samples.svc_up Samples.bound_world "bound"
              (fun _ => eq_refl) eq_refl) as (_ & Hrows & _).
  rewrite Hrows. reflexivity.
Defined.

Section Requests.
Variable svc : service_call -> option string.
Variable JSON_parse : string -> jsval + string.

(** Every request ends in one of two ways. *)
Lemma doPost_outcome (e : Event) (w : World) :
  (exists doc rowData,
      target_spreadsheet w = Some doc
      /\ doPost svc JSON_parse e w = (success_output, appended doc rowData w))
  \/ (exists err w',
         doPost svc JSON_parse e w = (failure_output err, w')
         /\ at_most_fresh_sheet w w').
Proof.
  destruct (parse_params JSON_parse e) as [params | err] eqn:Hp.
  2:{ right. exists err, w. split; [apply doPost_parse_throw; exact Hp | left; reflexivity]. }
  destruct (validate params) as [[] | err] eqn:Hv.
  2:{ right. exists err, w.
      split; [apply (doPost_validate_throw _ _ _ _ params) | left]; auto. }
  destruct (rowData_of params) as [rowData | err] eqn:Hr.
  2:{ right. exists err, w.
      split; [apply (doPost_row_throw _ _ _ _ params) | left]; auto. }
  destruct (doPost_try_store svc JSON_parse e w params rowData Hp Hv Hr)
    as [(doc & Ht & Htry) | (err & w' & Htry & _ & Hfresh)].
  - left. exists doc, rowData. split; [exact Ht |]. unfold doPost. rewrite Htry.
    reflexivity.
  - right. exists err, w'. split; [| exact Hfresh]. unfold doPost. rewrite Htry.
    reflexivity.
Qed.

End Requests.

(** X7. The store is append-only under [doPost], whatever the request,
    the parser and the service: the script properties and the binding are
    not written, no sheet other than a "logs" sheet changes, and a "logs"
    sheet that was there keeps its rows, in order, with at most one row
    added at the end, and that only in the target document of a request
    answered with the success output. *)
Theorem X7_append_only (svc : service_call -> option string)
    (JSON_parse : string -> jsval + string) (e : Event) (w : World) :
  script_properties (snd (doPost svc JSON_parse e w)) = script_properties w
  /\ active (snd (doPost svc JSON_parse e w)) = active w
  /\ (forall d n, n <> "logs" ->
                  sheet_rows d n (snd (doPost svc JSON_parse e w)) = sheet_rows d n w)
  /\ (forall d rows,
         sheet_rows d "logs" w = Some rows ->
         sheet_rows d "logs" (snd (doPost svc JSON_parse e w)) = Some rows
         \/ exists rowData,
             target_spreadsheet w = Some d
             /\ fst (doPost svc JSON_parse e w) = success_output
             /\ sheet_rows d "logs" (snd (doPost svc JSON_parse e w))
                = Some (rows ++ [rowData])%list).
Proof.
  destruct (doPost_outcome svc JSON_parse e w)
    as [(doc & rowData & Htgt & ->) | (err & w' & -> & Hfresh)]; cbn [fst snd].
  - split; [reflexivity |]. split; [reflexivity |]. split.
    + intros d n Hn. unfold appended. apply sheet_rows_with_sheet_ne. congruence.
    + intros d rows Hrows. destruct (decide (d = doc)) as [-> | Hd].
      * right. exists rowData. split; [exact Htgt |]. split; [reflexivity |].
        rewrite sheet_rows_appended, Hrows. reflexivity.
      * left. unfold appended. rewrite sheet_rows_with_sheet_ne by congruence.
        exact Hrows.
  - pose proof (at_most_fresh_sheet_keeps_rows w w' Hfresh) as Hkeep.
    destruct Hfresh as [-> | (doc & Hnone & [-> | ->])].
    + repeat split; auto.
    + split; [reflexivity |]. split; [reflexivity |]. split.
      * intros d n Hn. apply sheet_rows_with_sheet_ne. congruence.
      * intros d rows Hrows. left. apply Hkeep. exact Hrows.
    + split; [reflexivity |]. split; [reflexivity |]. split.
      * intros d n Hn. apply sheet_rows_with_sheet_ne. congruence.
      * intros d rows Hrows. left. apply Hkeep. exact Hrows.
Qed.

Lemma X7_append_only_witness :
  sheet_rows "bound" "other"
    (snd (doPost Samples.svc_up Samples.no_json Samples.heartbeat_post Samples.bound_world))
  = sheet_rows "bound" "other" Samples.bound_world.
Proof.
  apply (X7_append_only Samples.svc_up Samples.no_json Samples.heartbeat_post
           Samples.bound_world).
  discriminate.
Defined.

Lemma target_appended (doc : string) (rowData : Row) (w : World) :
  target_spreadsheet w = Some doc ->
  target_spreadsheet (appended doc rowData w) = Some doc.
Proof.
  intros Htgt. unfold appended.
  rewrite target_with_sheet; [exact Htgt | exact (target_is_document w doc Htgt)].
Qed.

(** X8. Two requests, one after the other, each of which gets past
    validation and has a row made, with the service answering: both are
    answered with the success output, and the log sheet ends as what it was
    (or the header row, written once) followed by the first request's row
    and then the second's. *)
Theorem X8_two_posts_in_order (svc : service_call -> option string)
    (JSON_parse : string -> jsval + string) (e1 e2 : Event) (w : World) (doc : string)
    (params1 params2 : jsval) (row1 row2 : Row) :
  (forall c, svc c = None) ->
  target_spreadsheet w = Some doc ->
  parse_params JSON_parse e1 = Normal params1 ->
  validate params1 = Normal tt ->
  rowData_of params1 = Normal row1 ->
  parse_params JSON_parse e2 = Normal params2 ->
  validate params2 = Normal tt ->
  rowData_of params2 = Normal row2 ->
  fst (doPost svc JSON_parse e1 w) = success_output
  /\ fst (doPost svc JSON_parse e2 (snd (doPost svc JSON_parse e1 w))) = success_output
  /\ sheet_rows doc "logs"
       (snd (doPost svc JSON_parse e2 (snd (doPost svc JSON_parse e1 w))))
     = Some (default [headers] (sheet_rows doc "logs" w) ++ [row1; row2])%list.
Proof.
  intros Hsvc Htgt Hp1 Hv1 Hr1 Hp2 Hv2 Hr2.
  rewrite (doPost_append svc JSON_parse e1 w params1 row1 doc) by assumption.
  cbn [fst snd].
  rewrite (doPost_append svc JSON_parse e2 (appended doc row1 w) params2 row2 doc)
    by (try assumption; apply target_appended; exact Htgt).
  cbn [fst snd]. split; [reflexivity |]. split; [reflexivity |].
  rewrite !sheet_rows_appended. cbn [default from_option id].
  rewrite <- app_assoc. reflexivity.
Qed.

Lemma X8_two_posts_in_order_witness :
  sheet_rows "bound" "logs"
    (snd (doPost Samples.svc_up Samples.no_json Samples.click_post
            (snd (doPost Samples.svc_up Samples.no_json Samples.heartbeat_post
                    Samples.bound_world))))
  = Some [headers;
          [JStr "2023-11-14T22:13:20.000Z"; JStr "heartbeat"; JStr ""; JStr "u1"; JStr ""];
          [JStr "2023-11-14T22:13:20.001Z"; JStr "cta_click"; JStr "B"; JStr "u2";
           JStr "{}"]].
Proof.
  destruct (X8_two_posts_in_order Samples.svc_up Samples.no_json Samples.heartbeat_post
              Samples.click_post Samples.bound_world "bound"
              (parameter_object Samples.heartbeat_post)
              (parameter_object Samples.click_post)
              [JStr "2023-11-14T22:13:20.000Z"; JStr "heartbeat"; JStr ""; JStr "u1";
               JStr ""]
              [JStr "2023-11-14T22:13:20.001Z"; JStr "cta_click"; JStr "B"; JStr "u2";
               JStr "{}"]
              (fun _ => eq_refl) eq_refl eq_refl eq_refl eq_refl eq_refl eq_refl eq_refl)
    as (_ & _ & Hrows).
  rewrite Hrows. reflexivity.
Defined.

(** The service fails on the header write, having made the sheet. *)
Lemma getOrCreateLogSheet_header_fails (svc : service_call -> option string) (w : World)
    (doc msg : string) :
  svc SetValues = Some msg ->
  (forall c, c <> SetValues -> svc c = None) ->
  target_spreadsheet w = Some doc ->
  sheet_rows doc "logs" w = None ->
  getOrCreateLogSheet svc w = (Throw (ServiceException msg), with_sheet doc "logs" [] w).
Proof.
  intros Hset Hother Htgt Hnone.
  assert (H1 : svc GetProperty = None) by (apply Hother; discriminate).
  assert (H2 : svc OpenById = None) by (apply Hother; discriminate).
  assert (H3 : svc GetActiveSpreadsheet = None) by (apply Hother; discriminate).
  assert (H4 : svc GetSheetByName = None) by (apply Hother; discriminate).
  assert (H5 : svc InsertSheet = None) by (apply Hother; discriminate).
  apply target_spreadsheet_inv in Htgt as [[ss Hdoc] Hsel].
  unfold getOrCreateLogSheet.
  cbv beta iota zeta delta
    [bindM ret throw lift modify reach getProperty openById getActiveSpreadsheet
     getSheetByName insertSheet initSheetHeaders setValues_row1 fst snd].
  rewrite H1, H2, H3, H4, H5, Hset. cbv beta iota.
  destruct (ToBoolean _).
  - rewrite Hsel. cbn [default from_option id]. rewrite Hdoc. cbv beta iota.
    rewrite Hnone. reflexivity.
  - rewrite Hsel, Hdoc. cbv beta iota. rewrite Hnone. reflexivity.
Qed.

(** X9. A header that could not be written is not written later. When the
    log sheet has to be made and the service fails on the header write,
    the request is answered with the failure output and the new sheet
    stays, empty. The next request that succeeds finds the sheet, so it
    writes no header: the log is then that request's row alone. *)
Theorem X9_header_not_repaired (svc1 svc2 : service_call -> option string)
    (JSON_parse : string -> jsval + string) (e1 e2 : Event) (w : World)
    (doc msg : string) (params1 params2 : jsval) (row1 row2 : Row) :
  svc1 SetValues = Some msg ->
  (forall c, c <> SetValues -> svc1 c = None) ->
  (forall c, svc2 c = None) ->
  target_spreadsheet w = Some doc ->
  sheet_rows doc "logs" w = None ->
  parse_params JSON_parse e1 = Normal params1 ->
  validate params1 = Normal tt ->
  rowData_of params1 = Normal row1 ->
  parse_params JSON_parse e2 = Normal params2 ->
  validate params2 = Normal tt ->
  rowData_of params2 = Normal row2 ->
  doPost svc1 JSON_parse e1 w
  = (failure_output (ServiceException msg), with_sheet doc "logs" [] w)
  /\ fst (doPost svc2 JSON_parse e2 (with_sheet doc "logs" [] w)) = success_output
  /\ sheet_rows doc "logs" (snd (doPost svc2 JSON_parse e2 (with_sheet doc "logs" [] w)))
     = Some [row2].
Proof.
  intros Hset Hother Hsvc2 Htgt Hnone Hp1 Hv1 Hr1 Hp2 Hv2 Hr2. split.
  - unfold doPost, doPost_try. cbv beta iota zeta delta [bindM lift ret].
    rewrite Hp1. cbv beta iota. rewrite Hv1. cbv beta iota. rewrite Hr1. cbv beta iota.
    rewrite (getOrCreateLogSheet_header_fails svc1 w doc msg) by assumption.
    reflexivity.
  - rewrite (doPost_append svc2 JSON_parse e2 (with_sheet doc "logs" [] w) params2 row2
               doc); try assumption.
    + cbn [fst snd]. split; [reflexivity |].
      rewrite sheet_rows_appended, sheet_rows_with_sheet. reflexivity.
    + rewrite target_with_sheet; [exact Htgt | exact (target_is_document w doc Htgt)].
Qed.

Lemma X9_header_not_repaired_witness :
  sheet_rows "bound" "logs"
    (snd (doPost Samples.svc_up Samples.no_json Samples.heartbeat_post
            (snd (doPost Samples.svc_header_down Samples.no_json Samples.click_post
                    Samples.bound_world))))
  = Some [[JStr "2023-11-14T22:13:20.000Z"; JStr "heartbeat"; JStr ""; JStr "u1";
           JStr ""]].
Proof.
  destruct (X9_header_not_repaired Samples.svc_header_down Samples.svc_up Samples.no_json
              Samples.click_post Samples.heartbeat_post Samples.bound_world "bound"
              "Service Spreadsheets timed out"
              (parameter_object Samples.click_post)
              (parameter_object Samples.heartbeat_post)
              [JStr "2023-11-14T22:13:20.001Z"; JStr "cta_click"; JStr "B"; JStr "u2";
               JStr "{}"]
              [JStr "2023-11-14T22:13:20.000Z"; JStr "heartbeat"; JStr ""; JStr "u1";
               JStr ""]
              eq_refl
              (fun c => match c with
                        | SetValues => fun H => False_ind _ (H eq_refl)
                        | _ => fun _ => eq_refl
                        end)
              (fun _ => eq_refl) eq_refl eq_refl eq_refl eq_refl eq_refl eq_refl eq_refl
              eq_refl)
    as (Hfirst & _ & Hrows).
  rewrite Hfirst. cbn [snd]. rewrite Hrows. reflexivity.
Defined.

End IngestCoverage.

(** ** More about the beacon *)
Module BeaconCoverage.
Import JS Beacon BeaconFacts.

(** The page when [sendLogSimple] returns: the page as [fetch] left it,
    with one more status. *)
Lemma sendLogSimple_sent (payload : Payload) (id_now : Z) (random36 : string)
    (ts_now : Z) (outcome : FetchOutcome) (p : Page) (gasUrl : string) :
  getItem GAS_URL p = Some gasUrl ->
  gasUrl <> "" ->
  endsWith gasUrl "/exec" = true ->
  sendLogSimple payload id_now random36 ts_now outcome p
  = match handle_response outcome with
    | Normal (text, isError) =>
        updateStatus text isError
          (fetch (mkRequest gasUrl "POST"
                    (fst (build_params payload id_now random36 ts_now p)))
             (snd (build_params payload id_now random36 ts_now p)))
    | Throw error =>
        updateStatus ("Failed: " +:+ message error) true
          (fetch (mkRequest gasUrl "POST"
                    (fst (build_params payload id_now random36 ts_now p)))
             (snd (build_params payload id_now random36 ts_now p)))
    end.
Proof.
  intros Hget Hne Hexec. unfold sendLogSimple. rewrite Hget.
  cbn [truthy default from_option id].
  apply String.eqb_neq in Hne. rewrite Hne, Hexec. cbn [negb].
  destruct (build_params payload id_now random36 ts_now p) as [params p1].
  cbn [fst snd]. destruct (handle_response outcome) as [[text isError] | error];
    reflexivity.
Qed.

Lemma getOrCreateUserId_rest (now : Z) (random36 : string) (p : Page) :
  timers (snd (getOrCreateUserId now random36 p)) = timers p
  /\ shown (snd (getOrCreateUserId now random36 p)) = shown p
  /\ gasUrlInput_value (snd (getOrCreateUserId now random36 p)) = gasUrlInput_value p
  /\ status_textContent (snd (getOrCreateUserId now random36 p)) = status_textContent p
  /\ status_className (snd (getOrCreateUserId now random36 p)) = status_className p
  /\ (forall k, k <> USER_ID ->
                getItem k (snd (getOrCreateUserId now random36 p)) = getItem k p).
Proof.
  unfold getOrCreateUserId. destruct (negb (truthy (getItem USER_ID p)));
    cbn [snd]; repeat split; try reflexivity.
  intros k Hk. unfold getItem, setItem. cbn. apply lookup_insert_ne. congruence.
Qed.

Lemma build_params_page (payload : Payload) (id_now : Z) (random36 : string) (ts_now : Z)
    (p : Page) :
  snd (build_params payload id_now random36 ts_now p)
  = snd (getOrCreateUserId id_now random36 p).
Proof. rewrite build_params_body. reflexivity. Qed.

(** What the status element and the timers are after a submission that
    went out. *)
Lemma sendLogSimple_status (payload : Payload) (id_now : Z) (random36 : string)
    (ts_now : Z) (outcome : FetchOutcome) (p : Page) (gasUrl : string) :
  getItem GAS_URL p = Some gasUrl ->
  gasUrl <> "" ->
  endsWith gasUrl "/exec" = true ->
  (status_textContent (sendLogSimple payload id_now random36 ts_now outcome p),
   status_className (sendLogSimple payload id_now random36 ts_now outcome p),
   timers (sendLogSimple payload id_now random36 ts_now outcome p))
  = match handle_response outcome with
    | Normal (text, true) => (text, "error", timers p)
    | Normal (text, false) => (text, "success", (timers p ++ [text])%list)
    | Throw error => ("Failed: " +:+ message error, "error", timers p)
    end.
Proof.
  intros Hget Hne Hexec.
  rewrite (sendLogSimple_sent payload id_now random36 ts_now outcome p gasUrl)
    by assumption.
  rewrite build_params_page.
  destruct (getOrCreateUserId_rest id_now random36 p) as (Htimers & _).
  destruct (handle_response outcome) as [[text [|]] | error];
    cbn [updateStatus fetch status_textContent status_className timers];
    rewrite Htimers; reflexivity.
Qed.

(** X10. What the user is shown after a submission that went out. The
    status has the success class if and only if the response status is
    between 200 and 299 and the JSON body has a truthy ok property; it then
    reads "Logged" and a timer is armed to clear it. In every other case
    it has the error class and no timer is armed: "Failed: <text>" for a
    network failure, "Failed: HTTP <status>" for a status outside 200-299,
    and "Server error" for a body whose ok is falsy, whatever error text
    the body carries. *)
Theorem X10_status_after_response (payload : Payload) (id_now : Z) (random36 : string)
    (ts_now : Z) (outcome : FetchOutcome) (p : Page) (gasUrl : string) :
  getItem GAS_URL p = Some gasUrl ->
  gasUrl <> "" ->
  endsWith gasUrl "/exec" = true ->
  (status_className (sendLogSimple payload id_now random36 ts_now outcome p) = "success"
   <-> exists status result ok,
       outcome = Response status (Normal result)
       /\ 200 <= status <= 299
       /\ Get result "ok" = Normal ok
       /\ ToBoolean ok = true)
  /\ (status_className (sendLogSimple payload id_now random36 ts_now outcome p) = "success"
      -> status_textContent (sendLogSimple payload id_now random36 ts_now outcome p)
         = "Logged"
         /\ timers (sendLogSimple payload id_now random36 ts_now outcome p)
            = (timers p ++ ["Logged"])%list)
  /\ (status_className (sendLogSimple payload id_now random36 ts_now outcome p)
      <> "success"
      -> status_className (sendLogSimple payload id_now random36 ts_now outcome p)
         = "error"
         /\ timers (sendLogSimple payload id_now random36 ts_now outcome p) = timers p)
  /\ (forall msg,
         outcome = NetworkError msg ->
         status_textContent (sendLogSimple payload id_now random36 ts_now outcome p)
         = "Failed: " +:+ msg)
  /\ (forall status json,
         outcome = Response status json ->
         status < 200 \/ 299 < status ->
         status_textContent (sendLogSimple payload id_now random36 ts_now outcome p)
         = "Failed: HTTP " +:+ Z_toString 10 status)
  /\ (forall status result ok,
         outcome = Response status (Normal result) ->
         200 <= status <= 299 ->
         Get result "ok" = Normal ok ->
         ToBoolean ok = false ->
         status_textContent (sendLogSimple payload id_now random36 ts_now outcome p)
         = "Server error").
Proof.
  intros Hget Hne Hexec.
  pose proof (sendLogSimple_status payload id_now random36 ts_now outcome p gasUrl
                Hget Hne Hexec) as Hstatus.
  set (p' := sendLogSimple payload id_now random36 ts_now outcome p) in *.
  assert (Hrange : forall status,
             negb ((200 <=? status) && (status <=? 299)) = false <-> 200 <= status <= 299).
  { intros status. rewrite negb_false_iff, andb_true_iff, !Z.leb_le. tauto. }
  destruct outcome as [msg | status json]; cbn [handle_response] in Hstatus.
  - injection Hstatus as Htext Hclass Htimers.
    split; [| split; [| split; [| split; [| split]]]].
    + rewrite Hclass. split; [discriminate | intros (? & ? & ? & H & _); discriminate H].
    + rewrite Hclass. discriminate.
    + intros _. split; assumption.
    + intros msg' H. injection H as <-. exact Htext.
    + intros status json H. discriminate H.
    + intros status result ok H. discriminate H.
  - destruct (negb ((200 <=? status) && (status <=? 299))) eqn:Hok.
    + assert (Hout : ~ 200 <= status <= 299)
        by (rewrite <- Hrange, Hok; discriminate).
      injection Hstatus as Htext Hclass Htimers.
      split; [| split; [| split; [| split; [| split]]]].
      * rewrite Hclass. split; [discriminate |].
        intros (s & r & o & H & Hin & _). injection H as <- _. contradiction.
      * rewrite Hclass. discriminate.
      * intros _. split; assumption.
      * intros msg H. discriminate H.
      * intros status' json' H _. injection H as <- _. exact Htext.
      * intros status' result ok H Hin. injection H as <- _. contradiction.
    + apply Hrange in Hok.
      destruct json as [result | error]; cbn [bind] in Hstatus.
      * destruct (Get result "ok") as [ok | error] eqn:Hget_ok; cbn [bind] in Hstatus.
        -- destruct (ToBoolean ok) eqn:Htruthy;
             injection Hstatus as Htext Hclass Htimers;
             (split; [| split; [| split; [| split; [| split]]]]).
           ++ rewrite Hclass. split; [| reflexivity]. intros _. eauto 10.
           ++ intros _. split; assumption.
           ++ rewrite Hclass. intros H. contradiction H. reflexivity.
           ++ intros msg H. discriminate H.
           ++ intros status' json' H Hout. injection H as <- _. lia.
           ++ intros status' result' ok' H _ Hget' Hfalse.
              injection H as <- <-. rewrite Hget_ok in Hget'. injection Hget' as <-.
              congruence.
           ++ rewrite Hclass. split; [discriminate |].
              intros (s & r & o & H & _ & Hget' & Htrue). injection H as <- <-.
              rewrite Hget_ok in Hget'. injection Hget' as <-. congruence.
           ++ rewrite Hclass. discriminate.
           ++ intros _. split; assumption.
           ++ intros msg H. discriminate H.
           ++ intros status' json' H Hout. injection H as <- _. lia.
           ++ intros status' result' ok' H _ _ _. exact Htext.
        -- injection Hstatus as Htext Hclass Htimers.
           split; [| split; [| split; [| split; [| split]]]].
           ++ rewrite Hclass. split; [discriminate |].
              intros (s & r & o & H & _ & Hget' & _). injection H as <- <-.
              rewrite Hget_ok in Hget'. discriminate Hget'.
           ++ rewrite Hclass. discriminate.
           ++ intros _. split; assumption.
           ++ intros msg H. discriminate H.
           ++ intros status' json' H Hout. injection H as <- _. lia.
           ++ intros status' result' ok' H _ Hget' _. injection H as <- <-.
              rewrite Hget_ok in Hget'. discriminate Hget'.
      * injection Hstatus as Htext Hclass Htimers.
        split; [| split; [| split; [| split; [| split]]]].
        -- rewrite Hclass. split; [discriminate |].
           intros (s & r & o & H & _). discriminate H.
        -- rewrite Hclass. discriminate.
        -- intros _. split; assumption.
        -- intros msg H. discriminate H.
        -- intros status' json' H Hout. injection H as <- _. lia.
        -- intros status' result' ok' H. discriminate H.
Qed.

Lemma X10_status_after_response_witness :
  status_textContent
    (sendLogSimple Samples.cta_A 1700000000000 "0.4fzyo82mvyr" 1700000000000
       (Response 500 (Throw (SyntaxError "Unexpected token"))) Samples.configured_page)
  = "Failed: HTTP 500".
Proof.
  destruct (X10_status_after_response Samples.cta_A 1700000000000 "0.4fzyo82mvyr"
              1700000000000 (Response 500 (Throw (SyntaxError "Unexpected token")))
              Samples.configured_page "https://example.google.com/exec"
              eq_refl ltac:(discriminate) eq_refl) as (_ & _ & _ & _ & Hhttp & _).
  rewrite (Hhttp 500 (Throw (SyntaxError "Unexpected token")) eq_refl); [reflexivity |].
  right. vm_compute. reflexivity.
Defined.

(** X11. The clearing of the status. An error arms no timer; any other
    message arms one that remembers its text. When the timer fires and the
    status still reads that text, text and class are emptied. When the
    status reads something else by then, the timer changes nothing. The
    test is on the text alone: a later message with the same text, even an
    error, is emptied by the timer of the earlier one. *)
Theorem X11_status_auto_clear (m1 m2 : string) (isError : bool) (p : Page) :
  timers (updateStatus m1 true p) = timers p
  /\ timers (updateStatus m1 false p) = (timers p ++ [m1])%list
  /\ status_textContent (timer_fires m1 (updateStatus m1 false p)) = ""
  /\ status_className (timer_fires m1 (updateStatus m1 false p)) = ""
  /\ (m2 <> m1 ->
      timer_fires m1 (updateStatus m2 isError (updateStatus m1 false p))
      = updateStatus m2 isError (updateStatus m1 false p))
  /\ status_textContent
       (timer_fires m1 (updateStatus m1 isError (updateStatus m1 false p))) = ""
  /\ status_className
       (timer_fires m1 (updateStatus m1 isError (updateStatus m1 false p))) = ""
  /\ localStorage (timer_fires m1 p) = localStorage p
  /\ fetched (timer_fires m1 p) = fetched p.
Proof.
  repeat split.
  - unfold timer_fires. cbn [updateStatus status_textContent].
    rewrite String.eqb_refl. reflexivity.
  - unfold timer_fires. cbn [updateStatus status_textContent].
    rewrite String.eqb_refl. reflexivity.
  - intros Hne. unfold timer_fires. cbn [updateStatus status_textContent].
    apply String.eqb_neq in Hne. rewrite Hne. reflexivity.
  - unfold timer_fires. cbn [updateStatus status_textContent].
    rewrite String.eqb_refl. reflexivity.
  - unfold timer_fires. cbn [updateStatus status_textContent].
    rewrite String.eqb_refl. reflexivity.
  - unfold timer_fires. destruct (String.eqb _ _); reflexivity.
  - unfold timer_fires. destruct (String.eqb _ _); reflexivity.
Qed.

Lemma X11_status_auto_clear_witness :
  timer_fires "Logged" (updateStatus "Server error" true
                          (updateStatus "Logged" false Samples.configured_page))
  = updateStatus "Server error" true (updateStatus "Logged" false Samples.configured_page).
Proof.
  apply (X11_status_auto_clear "Logged" "Server error" true Samples.configured_page).
  discriminate.
Defined.

(** X12. [getOrCreateUserId] writes local storage exactly when it holds no
    identifier or an empty one. It then stores, under uid, "usr_", the
    time in base 36, "_" and up to nine characters of the random number's
    base-36 text after its first two. No other key is touched. *)
Theorem X12_identifier_written_when_absent (now : Z) (random36 : string) (p : Page) :
  (snd (getOrCreateUserId now random36 p) = p
   <-> exists s, getItem USER_ID p = Some s /\ s <> "")
  /\ (getItem USER_ID p = None \/ getItem USER_ID p = Some "" ->
      fst (getOrCreateUserId now random36 p)
      = "usr_" +:+ Z_toString 36 now +:+ "_" +:+ substr random36 2 9
      /\ snd (getOrCreateUserId now random36 p)
         = setItem USER_ID (fst (getOrCreateUserId now random36 p)) p)
  /\ (forall k, k <> USER_ID ->
                getItem k (snd (getOrCreateUserId now random36 p)) = getItem k p).
Proof.
  split; [| split].
  - split.
    + intros Hsame.
      destruct (getOrCreateUserId_stored now random36 p) as [Hstored Hne].
      rewrite Hsame in Hstored. eauto.
    + intros (s & Hget & Hne).
      rewrite (getOrCreateUserId_kept now random36 s p Hget Hne). reflexivity.
  - intros Habsent. unfold getOrCreateUserId.
    destruct Habsent as [-> | ->]; cbn [truthy negb fst snd]; split; reflexivity.
  - apply getOrCreateUserId_rest.
Qed.

Lemma X12_identifier_written_when_absent_witness :
  fst (getOrCreateUserId 1700000000000 "0" Samples.fresh_page) = "usr_loyw3v28_".
Proof.
  destruct (X12_identifier_written_when_absent 1700000000000 "0" Samples.fresh_page)
    as (_ & Hnew & _).
  destruct (Hnew (or_introl eq_refl)) as [Hid _]. rewrite Hid. reflexivity.
Defined.

Lemma saveUrl_click_stored (p : Page) :
  trim (gasUrlInput_value p) <> "" ->
  getItem GAS_URL (saveUrl_click p) = Some (trim (gasUrlInput_value p))
  /\ fetched (saveUrl_click p) = fetched p
  /\ (forall k, k <> GAS_URL -> getItem k (saveUrl_click p) = getItem k p).
Proof.
  intros Hne. unfold saveUrl_click. apply String.eqb_neq in Hne. rewrite Hne.
  destruct (negb (startsWith (trim (gasUrlInput_value p)) "https://")
            || negb (includes (trim (gasUrlInput_value p)) "google.com"));
    repeat split; try (unfold getItem; cbn; apply lookup_insert_eq);
    intros k Hk; unfold getItem; cbn; apply lookup_insert_ne; congruence.
Qed.

(** X13. Saving does not ask for the /exec ending that sending asks for.
    After a click on save with a non-empty trimmed text, a submission goes
    out to exactly that text if it ends in /exec; if it does not, the text
    was stored all the same and the submission is stopped with "URL must
    end with /exec", nothing being sent. Pressing Enter in the input is
    the click; any other key does nothing. *)
Theorem X13_save_then_send (payload : Payload) (id_now : Z) (random36 : string)
    (ts_now : Z) (outcome : FetchOutcome) (p : Page) :
  trim (gasUrlInput_value p) <> "" ->
  (endsWith (trim (gasUrlInput_value p)) "/exec" = true ->
   fetched (sendLogSimple payload id_now random36 ts_now outcome (saveUrl_click p))
   = (fetched p
        ++ [mkRequest (trim (gasUrlInput_value p)) "POST"
              (fst (build_params payload id_now random36 ts_now (saveUrl_click p)))])%list)
  /\ (endsWith (trim (gasUrlInput_value p)) "/exec" = false ->
      getItem GAS_URL (saveUrl_click p) = Some (trim (gasUrlInput_value p))
      /\ sendLogSimple payload id_now random36 ts_now outcome (saveUrl_click p)
         = updateStatus "URL must end with /exec" true (saveUrl_click p)
      /\ fetched (sendLogSimple payload id_now random36 ts_now outcome (saveUrl_click p))
         = fetched p)
  /\ gasUrlInput_keypress "Enter" p = saveUrl_click p
  /\ (forall key, key <> "Enter" -> gasUrlInput_keypress key p = p).
Proof.
  intros Hne. destruct (saveUrl_click_stored p Hne) as (Hstored & Hfetched & _).
  split; [| split; [| split]].
  - intros Hexec.
    rewrite (sendLogSimple_fetched payload id_now random36 ts_now outcome
               (saveUrl_click p) (trim (gasUrlInput_value p)) Hstored Hne Hexec).
    rewrite Hfetched. reflexivity.
  - intros Hexec. split; [exact Hstored |].
    assert (Hsend : sendLogSimple payload id_now random36 ts_now outcome (saveUrl_click p)
                    = updateStatus "URL must end with /exec" true (saveUrl_click p)).
    { unfold sendLogSimple. rewrite Hstored. cbn [truthy default from_option id].
      apply String.eqb_neq in Hne. rewrite Hne, Hexec. reflexivity. }
    split; [exact Hsend |]. rewrite Hsend. exact Hfetched.
  - reflexivity.
  - intros key Hkey. unfold gasUrlInput_keypress.
    apply String.eqb_neq in Hkey. rewrite Hkey. reflexivity.
Qed.

Lemma X13_save_then_send_witness :
  getItem GAS_URL (saveUrl_click Samples.typing_page)
  = Some "https://script.google.com/macros/s/abc/dev"
  /\ fetched (sendLogSimple Samples.cta_A 1700000000000 "0.4fzyo82mvyr" 1700000000000
                Samples.ok_response (saveUrl_click Samples.typing_page))
     = [].
Proof.
  destruct (X13_save_then_send Samples.cta_A 1700000000000 "0.4fzyo82mvyr" 1700000000000
              Samples.ok_response Samples.typing_page ltac:(vm_compute; discriminate))
    as (_ & Hstopped & _).
  destruct (Hstopped eq_refl) as (Hstored & _ & Hnone).
  split; [rewrite Hstored | rewrite Hnone]; reflexivity.
Defined.

(** X14. After [init] local storage holds a non-empty identifier, the
    saved endpoint is as it was and, when not empty, is shown in the input;
    nothing was sent and the status was not written. Every submission
    built afterwards carries that identifier as its userId, whatever the
    clock and the random source say by then. *)
Theorem X14_init_then_send (now : Z) (random36 : string) (p : Page) :
  exists uid,
    getItem USER_ID (init now random36 p) = Some uid
    /\ uid <> ""
    /\ getItem GAS_URL (init now random36 p) = getItem GAS_URL p
    /\ gasUrlInput_value (init now random36 p)
       = (if truthy (getItem GAS_URL p) then default "" (getItem GAS_URL p)
          else gasUrlInput_value p)
    /\ fetched (init now random36 p) = fetched p
    /\ shown (init now random36 p) = shown p
    /\ (forall payload id_now random36' ts_now,
           In ("userId", uid)
             (fst (build_params payload id_now random36' ts_now (init now random36 p)))
           /\ snd (build_params payload id_now random36' ts_now (init now random36 p))
              = init now random36 p).
Proof.
  unfold init.
  set (p1 := if truthy (getItem GAS_URL p) then _ else p).
  assert (Hp1 : getItem GAS_URL p1 = getItem GAS_URL p /\ fetched p1 = fetched p
                /\ shown p1 = shown p
                /\ gasUrlInput_value p1
                   = (if truthy (getItem GAS_URL p) then default "" (getItem GAS_URL p)
                      else gasUrlInput_value p)).
  { unfold p1. destruct (truthy (getItem GAS_URL p)); repeat split; reflexivity. }
  destruct Hp1 as (Hurl & Hfetched & Hshown & Hinput).
  destruct (getOrCreateUserId_stored now random36 p1) as [Hstored Hne].
  destruct (getOrCreateUserId_page now random36 p1) as (_ & _ & Hf & Hg).
  destruct (getOrCreateUserId_rest now random36 p1) as (_ & Hs & Hi & _).
  exists (fst (getOrCreateUserId now random36 p1)).
  split; [exact Hstored |]. split; [exact Hne |].
  split; [rewrite Hg; exact Hurl |]. split; [rewrite Hi; exact Hinput |].
  split; [rewrite Hf; exact Hfetched |]. split; [rewrite Hs; exact Hshown |].
  intros payload id_now random36' ts_now. rewrite build_params_body. cbn [fst snd].
  rewrite (getOrCreateUserId_kept id_now random36' _ _ Hstored Hne). cbn [fst].
  split; [| reflexivity].
  apply in_or_app. right. apply in_or_app. right. left. reflexivity.
Qed.

(** X15. A submission writes nothing to local storage but, at most, the
    identifier: the saved endpoint and every other key are as they were,
    and with a non-empty identifier stored the whole of local storage is.
    The input is not changed, and at most one request is handed to
    [fetch], whatever comes back. *)
Theorem X15_send_leaves_storage (payload : Payload) (id_now : Z) (random36 : string)
    (ts_now : Z) (outcome : FetchOutcome) (p : Page) :
  (forall k, k <> USER_ID ->
             getItem k (sendLogSimple payload id_now random36 ts_now outcome p)
             = getItem k p)
  /\ (forall s, getItem USER_ID p = Some s -> s <> "" ->
                localStorage (sendLogSimple payload id_now random36 ts_now outcome p)
                = localStorage p)
  /\ gasUrlInput_value (sendLogSimple payload id_now random36 ts_now outcome p)
     = gasUrlInput_value p
  /\ (fetched (sendLogSimple payload id_now random36 ts_now outcome p) = fetched p
      \/ exists r,
          fetched (sendLogSimple payload id_now random36 ts_now outcome p)
          = (fetched p ++ [r])%list).
Proof.
  assert (Hshape :
            (exists text,
                sendLogSimple payload id_now random36 ts_now outcome p
                = updateStatus text true p)
            \/ (exists text isError r,
                   sendLogSimple payload id_now random36 ts_now outcome p
                   = updateStatus text isError
                       (fetch r (snd (getOrCreateUserId id_now random36 p))))).
  { destruct (getItem GAS_URL p) as [gasUrl |] eqn:Hget.
    - destruct (String.eqb_spec gasUrl "") as [-> | Hne].
      + left. unfold sendLogSimple. rewrite Hget. eexists. reflexivity.
      + destruct (endsWith gasUrl "/exec") eqn:Hexec.
        * right.
          rewrite (sendLogSimple_sent payload id_now random36 ts_now outcome p gasUrl)
            by assumption.
          rewrite build_params_page.
          destruct (handle_response outcome) as [[text isError] | error]; eauto.
        * left. unfold sendLogSimple. rewrite Hget. cbn [truthy default from_option id].
          apply String.eqb_neq in Hne. rewrite Hne, Hexec. eexists. reflexivity.
    - left. unfold sendLogSimple. rewrite Hget. eexists. reflexivity. }
  destruct (getOrCreateUserId_rest id_now random36 p) as (_ & _ & Hinput & _ & _ & Hkeys).
  destruct (getOrCreateUserId_page id_now random36 p) as (_ & _ & Hfetched & _).
  destruct Hshape as [(text & ->) | (text & isError & r & ->)].
  - repeat split; auto.
  - split; [| split; [| split]].
    + intros k Hk. exact (Hkeys k Hk).
    + intros s Hs Hne. cbn [updateStatus fetch localStorage].
      rewrite (getOrCreateUserId_kept id_now random36 s p Hs Hne). reflexivity.
    + exact Hinput.
    + right. exists r. cbn [updateStatus fetch fetched]. rewrite Hfetched. reflexivity.
Qed.

End BeaconCoverage.
